(** * Casa del Kumis backend: the submission intake service

    A shallow embedding of [server.js] (three variants of the same Express
    application) and the properties of its intake pipeline, its per-minute
    request counter and its CSV export.

    Conventions of the embedding.
    - A JavaScript string is the list of its UTF-16 code units.
    - The values that flow through the handlers are [undefined], [null],
      strings and numbers.
    - The collaborators (Google Drive, the libSQL store, the mail transport)
      are explicit state: every call is appended to a log together with
      its outcome, and an oracle of the environment decides which calls
      fail.  A call that throws leaves the collaborator as it was.  The
      libSQL client refuses an [undefined] argument with a TypeError before
      the store is reached.
    - The upload middleware of variant 1 (multer with its file filter) stands
      before the handlers: [V1.posted].
    - Handlers are computations in a state-and-exception monad; [try]/[catch]
      is [try_catch]. *)

From Stdlib Require Import NArith ZArith Ascii String List Sorted Permutation Lia.
From stdpp Require Import base decidable option list numbers strings gmap fin_maps sorting pretty.

Local Open Scope N_scope.

(** ** JavaScript strings and values *)

Definition jsstring := list N.

(** An ASCII literal of the source, as code units. *)
Definition lit (s : string) : jsstring :=
  map N_of_ascii (list_ascii_of_string s).

Inductive value :=
| undefined
| null
| Str (s : jsstring)
| Num (z : Z).

Global Instance value_eq_dec : EqDecision value.
Proof. solve_decision. Defined.

(** [Boolean(v)], the test behind [!v], [v || d] and [.filter(Boolean)]. *)
Definition truthy (v : value) : bool :=
  match v with
  | undefined | null => false
  | Str s => match s with [] => false | _ :: _ => true end
  | Num z => negb (Z.eqb z 0)
  end.

(** [a || b] *)
Definition js_or (a b : value) : value := if truthy a then a else b.

(** Decimal text of a non-negative integer, as in a template literal. *)
Definition decimal (n : N) : jsstring := lit (pretty n).

(** [`${v}`] *)
Definition template (v : value) : jsstring :=
  match v with
  | undefined => lit "undefined"
  | null => lit "null"
  | Str s => s
  | Num z => match z with
             | Zneg p => lit "-" ++ decimal (Npos p)
             | _ => decimal (Z.to_N z)
             end
  end.

(** The regular expression class [\s]. *)
Definition is_space (c : N) : bool :=
  ((9 <=? c) && (c <=? 13)) || (c =? 32) || (c =? 160) || (c =? 0x1680)
  || ((0x2000 <=? c) && (c <=? 0x200A)) || (c =? 0x2028) || (c =? 0x2029)
  || (c =? 0x202F) || (c =? 0x205F) || (c =? 0x3000) || (c =? 0xFEFF).

Definition underscore : N := 95.

(** [s.replace(/\s+/g, '_')]: the matcher scans from the left; a match
    starts at the first white-space unit met and, [+] being greedy, extends
    over all the white-space units that follow.  [in_match] tells that the
    unit before belongs to the match being replaced. *)
Fixpoint replace_spaces_from (in_match : bool) (s : jsstring) : jsstring :=
  match s with
  | [] => []
  | c :: r =>
      if is_space c
      then (if in_match then replace_spaces_from true r
            else underscore :: replace_spaces_from true r)
      else c :: replace_spaces_from false r
  end.

Definition replace_spaces (s : jsstring) : jsstring :=
  replace_spaces_from false s.

(** [s.split(',')[0]] *)
Fixpoint split_comma_0 (s : jsstring) : jsstring :=
  match s with
  | [] => []
  | c :: r => if c =? 44 then [] else c :: split_comma_0 r
  end.

(** [Buffer.from(s, 'utf8')]: the bytes Node sends for a string body.
    A surrogate pair is one 4-byte sequence; a lone surrogate is replaced
    by U+FFFD. *)
Definition is_high_surrogate (c : N) : bool := (0xD800 <=? c) && (c <=? 0xDBFF).
Definition is_low_surrogate (c : N) : bool := (0xDC00 <=? c) && (c <=? 0xDFFF).

Definition utf8_of_code_point (cp : N) : list N :=
  if cp <? 0x80 then [cp]
  else if cp <? 0x800 then [0xC0 + cp / 64; 0x80 + cp mod 64]
  else if cp <? 0x10000 then
    [0xE0 + cp / 4096; 0x80 + (cp / 64) mod 64; 0x80 + cp mod 64]
  else [0xF0 + cp / 262144; 0x80 + (cp / 4096) mod 64;
        0x80 + (cp / 64) mod 64; 0x80 + cp mod 64].

Fixpoint utf8 (s : jsstring) : list N :=
  match s with
  | [] => []
  | c :: r =>
      if is_high_surrogate c then
        match r with
        | d :: r' =>
            if is_low_surrogate d
            then utf8_of_code_point (0x10000 + (c - 0xD800) * 1024 + (d - 0xDC00))
                   ++ utf8 r'
            else utf8_of_code_point 0xFFFD ++ utf8 r
        | [] => utf8_of_code_point 0xFFFD
        end
      else if is_low_surrogate c then utf8_of_code_point 0xFFFD ++ utf8 r
      else utf8_of_code_point c ++ utf8 r
  end.

(** ** The request, as a handler receives it *)

(** [req.file] after [upload.single('archivo')] with memory storage. *)
Record File := {
  originalname : jsstring;
  mimetype : jsstring;
  buffer : list N
}.

(** The form fields of [req.body]. *)
Record Body := {
  nombre : value;
  email : value;
  telefono : value;
  cargo : value;
  sucursal : value;
  asunto : value;
  mensaje : value
}.

Record Request := {
  body : option Body;            (* [None]: [req.body] is undefined *)
  file : option File;            (* [req.file] *)
  x_forwarded_for : value;       (* [req.headers['x-forwarded-for']] *)
  user_agent : value;            (* [req.headers['user-agent']] *)
  remoteAddress : value;         (* [req.socket.remoteAddress] *)
  Date_now : N;                  (* [Date.now()] while the request is served *)
  toISOString : jsstring;        (* [new Date().toISOString()] *)
  getMinutes : N                 (* [new Date().getMinutes()] *)
}.

(** What [res] is given. *)
Inductive Payload :=
| Text (s : jsstring)
| Json (ok : bool) (message : jsstring)
| Attachment (filename : jsstring) (content : jsstring).

Record Response := {
  status : N;
  payload : Payload
}.

(** ** The collaborators *)

Record Mail := {
  mail_to : list value;
  mail_cc : value;
  mail_subject : jsstring
}.

Inductive table := Postulaciones | Quejas.

Global Instance table_eq_dec : EqDecision table.
Proof. solve_decision. Defined.

(** Every call that leaves the process. *)
Inductive Call :=
| drive_files_create (name : jsstring) (parents : list value)
                     (mimeType : jsstring) (media : list N)
| drive_files_update (fileId : jsstring) (addParents : value)
| drive_permissions_create (fileId : jsstring)
| db_insert (t : table) (columns : list string) (args : list value)
| db_select_postulaciones
| transporter_sendMail (m : Mail).

Definition is_drive_call (c : Call) : bool :=
  match c with
  | drive_files_create _ _ _ _ | drive_files_update _ _
  | drive_permissions_create _ => true
  | _ => false
  end.

Definition is_db_call (c : Call) : bool :=
  match c with
  | db_insert _ _ _ | db_select_postulaciones => true
  | _ => false
  end.

Definition is_db_insert (c : Call) : bool :=
  match c with
  | db_insert _ _ _ => true
  | _ => false
  end.

Definition is_mail_call (c : Call) : bool :=
  match c with
  | transporter_sendMail _ => true
  | _ => false
  end.

(** A line of the log: the call, and whether it threw. *)
Record Entry := {
  call : Call;
  threw : bool
}.

Record DriveFile := {
  file_id : jsstring;
  file_name : jsstring;
  file_parents : list value;
  file_mime : jsstring;
  file_bytes : list N;
  anyone_can_read : bool
}.

(** A row of the store: its columns by name, as the client returns it. *)
Definition Row := list (string * value).

(** [r.c] *)
Fixpoint column (c : string) (r : Row) : value :=
  match r with
  | [] => undefined
  | (k, v) :: r' => if String.eqb k c then v else column c r'
  end.

Record Table := {
  autoincrement : bool;          (* is [id] INTEGER PRIMARY KEY AUTOINCREMENT? *)
  rows : list Row;
  sequence : N                   (* the table's entry in sqlite_sequence *)
}.

Record World := {
  hits : gmap jsstring N;        (* the rate limiter's [Map] *)
  log : list Entry;              (* the calls made so far, in order *)
  drive : list DriveFile;
  postulaciones : Table;
  quejas : Table;
  outbox : list Mail;
  uuids_drawn : nat
}.

(** The configuration and what the process cannot decide. *)
Record Env := {
  GOOGLE_FOLDER_ID : value;
  GOOGLE_FOLDER_QUEJAS_ID : value;
  EMAIL_TO : value;
  EMAIL_CC : value;
  ext_fails : nat -> bool;       (* does the n-th call of the log throw? *)
  drive_id : nat -> jsstring;    (* the id Drive gives the file of the n-th call *)
  randomUUID : nat -> jsstring   (* the n-th draw of [crypto.randomUUID()] *)
}.

(** ** The store *)

(** A value as the store holds it.  SQL has no [undefined]: a column that a
    row does not have reads as NULL.  An [undefined] argument of an insert
    never gets this far, the client refuses it (see [refused]). *)
Definition to_sql (v : value) : value :=
  match v with
  | undefined => null
  | _ => v
  end.

Definition is_undefined (v : value) : bool :=
  match v with
  | undefined => true
  | _ => false
  end.

(** The libSQL client throws a TypeError on an [undefined] argument, before
    anything is sent to the store. *)
Definition refused (c : Call) : bool :=
  match c with
  | db_insert _ _ args => existsb is_undefined args
  | _ => false
  end.

Definition rowid (r : Row) : N :=
  match column "id" r with
  | Num z => Z.to_N z
  | _ => 0
  end.

Definition max_rowid (l : list Row) : N :=
  foldr (fun r m => N.max (rowid r) m) 0 l.

(** AUTOINCREMENT: one more than the largest id the table has ever held. *)
Definition next_rowid (t : Table) : N :=
  N.max (max_rowid (rows t)) (sequence t) + 1.

Definition names_id (columns : list string) : bool :=
  existsb (String.eqb "id") columns.

(** [INSERT INTO t (columns) VALUES (?, ..., ?)] with [args]. *)
Definition sql_insert (columns : list string) (args : list value) (t : Table) : Table :=
  let cells := zip columns (map to_sql args) in
  if autoincrement t && negb (names_id columns) then
    let i := next_rowid t in
    {| autoincrement := autoincrement t;
       rows := rows t ++ [("id"%string, Num (Z.of_N i)) :: cells];
       sequence := i |}
  else
    {| autoincrement := autoincrement t;
       rows := rows t ++ [cells];
       sequence := sequence t |}.

(** The order of SQLite on the values met here: NULL, then numbers, then
    text by the bytes of its UTF-8 encoding. *)
Fixpoint bytes_le (a b : list N) : bool :=
  match a, b with
  | [], _ => true
  | _ :: _, [] => false
  | x :: a', y :: b' => (x <? y) || ((x =? y) && bytes_le a' b')
  end.

Definition sql_le (a b : value) : bool :=
  match to_sql a, to_sql b with
  | Str s, Str t => bytes_le (utf8 s) (utf8 t)
  | Str _, _ => false
  | Num x, Num y => Z.leb x y
  | Num _, Str _ => true
  | Num _, _ => false
  | _, _ => true
  end.

(** [a] may stand before [b] under [ORDER BY c DESC]. *)
Definition desc_by (c : string) (a b : Row) : Prop :=
  sql_le (column c b) (column c a) = true.

Global Instance desc_by_dec c a b : Decision (desc_by c a b).
Proof. unfold desc_by. apply _. Defined.

(** [SELECT * FROM t ORDER BY c DESC] *)
Definition select_order_by_desc (c : string) (t : Table) : list Row :=
  merge_sort (desc_by c) (rows t).

(** ** Effects *)

Inductive error :=
| DriveError
| StoreError
| MailError
| TypeError.

Inductive outcome (A : Type) :=
| Value (a : A)
| Thrown (e : error).
Arguments Value {A} a.
Arguments Thrown {A} e.

Definition M (A : Type) : Type := World -> outcome A * World.

Definition ret {A} (a : A) : M A := fun w => (Value a, w).

Definition throw {A} (e : error) : M A := fun w => (Thrown e, w).

Definition bind {A B} (m : M A) (k : A -> M B) : M B :=
  fun w =>
    match m w with
    | (Value a, w') => k a w'
    | (Thrown e, w') => (Thrown e, w')
    end.

(** [try { m } catch (err) { console.error(..., err); return h }]: the
    [catch] blocks of the handlers only log and answer, so a handler is a
    total function from the world to a response and the world after. *)
Definition try_catch (m : M Response) (h : error -> Response)
  : World -> Response * World :=
  fun w =>
    match m w with
    | (Value r, w') => (r, w')
    | (Thrown e, w') => (h e, w')
    end.

Notation "'let*' x := m 'in' k" := (bind m (fun x => k))
  (at level 10, x name, m at level 100, k at level 200).
Notation "'run' m 'in' k" := (bind m (fun _ => k))
  (at level 10, m at level 100, k at level 200).

Definition set_log (l : list Entry) (w : World) : World :=
  {| hits := hits w; log := l; drive := drive w;
     postulaciones := postulaciones w; quejas := quejas w;
     outbox := outbox w; uuids_drawn := uuids_drawn w |}.

Definition set_hits (h : gmap jsstring N) (w : World) : World :=
  {| hits := h; log := log w; drive := drive w;
     postulaciones := postulaciones w; quejas := quejas w;
     outbox := outbox w; uuids_drawn := uuids_drawn w |}.

Definition set_drive (d : list DriveFile) (w : World) : World :=
  {| hits := hits w; log := log w; drive := d;
     postulaciones := postulaciones w; quejas := quejas w;
     outbox := outbox w; uuids_drawn := uuids_drawn w |}.

Definition set_table (t : table) (x : Table) (w : World) : World :=
  {| hits := hits w; log := log w; drive := drive w;
     postulaciones := match t with Postulaciones => x | Quejas => postulaciones w end;
     quejas := match t with Quejas => x | Postulaciones => quejas w end;
     outbox := outbox w; uuids_drawn := uuids_drawn w |}.

Definition get_table (t : table) (w : World) : Table :=
  match t with
  | Postulaciones => postulaciones w
  | Quejas => quejas w
  end.

Definition set_outbox (o : list Mail) (w : World) : World :=
  {| hits := hits w; log := log w; drive := drive w;
     postulaciones := postulaciones w; quejas := quejas w;
     outbox := o; uuids_drawn := uuids_drawn w |}.

Definition set_uuids_drawn (n : nat) (w : World) : World :=
  {| hits := hits w; log := log w; drive := drive w;
     postulaciones := postulaciones w; quejas := quejas w;
     outbox := outbox w; uuids_drawn := n |}.

Definition add_parent (fid : jsstring) (p : value) (f : DriveFile) : DriveFile :=
  if decide (file_id f = fid) then
    {| file_id := file_id f; file_name := file_name f;
       file_parents := file_parents f ++ [p]; file_mime := file_mime f;
       file_bytes := file_bytes f; anyone_can_read := anyone_can_read f |}
  else f.

Definition make_public (fid : jsstring) (f : DriveFile) : DriveFile :=
  if decide (file_id f = fid) then
    {| file_id := file_id f; file_name := file_name f;
       file_parents := file_parents f; file_mime := file_mime f;
       file_bytes := file_bytes f; anyone_can_read := true |}
  else f.

Definition failure_of (c : Call) : error :=
  match c with
  | drive_files_create _ _ _ _ | drive_files_update _ _
  | drive_permissions_create _ => DriveError
  | db_insert _ _ _ | db_select_postulaciones => StoreError
  | transporter_sendMail _ => MailError
  end.

Section Effects.
Variable env : Env.

(** What the [n]-th call of the log does to its collaborator when it
    does not throw. *)
Definition effect (n : nat) (c : Call) (w : World) : World :=
  match c with
  | drive_files_create name parents mime media =>
      set_drive (drive w ++ [{| file_id := drive_id env n; file_name := name;
                                file_parents := parents; file_mime := mime;
                                file_bytes := media; anyone_can_read := false |}]) w
  | drive_files_update fid p => set_drive (map (add_parent fid p) (drive w)) w
  | drive_permissions_create fid => set_drive (map (make_public fid) (drive w)) w
  | db_insert t columns args => set_table t (sql_insert columns args (get_table t w)) w
  | db_select_postulaciones => w
  | transporter_sendMail m => set_outbox (outbox w ++ [m]) w
  end.

(** One awaited call: logged, then thrown or carried out.  It throws when
    the client refuses its arguments or when the collaborator fails.  The
    value is the place of the call in the log, by which Drive names its
    file. *)
Definition invoke (c : Call) : M nat :=
  fun w =>
    let n := length (log w) in
    let failed := refused c || ext_fails env n in
    let w' := set_log (log w ++ [{| call := c; threw := failed |}]) w in
    if failed then (Thrown (if refused c then TypeError else failure_of c), w')
    else (Value n, effect n c w').

(** [crypto.randomUUID()] *)
Definition genId : M value :=
  fun w => (Value (Str (randomUUID env (uuids_drawn w))),
            set_uuids_drawn (S (uuids_drawn w)) w).

(** [await turso.execute('SELECT * FROM postulaciones ORDER BY fecha_envio DESC')],
    then [result.rows || []]. *)
Definition select_postulaciones : M (list Row) :=
  run invoke db_select_postulaciones in
  fun w => (Value (select_order_by_desc "fecha_envio" (postulaciones w)), w).

End Effects.

Definition respond (code : N) (p : Payload) : Response :=
  {| status := code; payload := p |}.

(** The form fields of [{}]. *)
Definition no_fields : Body :=
  {| nombre := undefined; email := undefined; telefono := undefined;
     cargo := undefined; sucursal := undefined; asunto := undefined;
     mensaje := undefined |}.

(** [v.replace(/\s+/g, '_')]: only a string has the method. *)
Definition replace_method (v : value) : M jsstring :=
  match v with
  | Str s => ret (replace_spaces s)
  | _ => throw TypeError
  end.

(** [req.headers['x-forwarded-for']?.toString().split(',')[0]] *)
Definition forwarded_for (req : Request) : value :=
  match x_forwarded_for req with
  | undefined => undefined
  | null => undefined
  | v => Str (split_comma_0 (template v))
  end.

Definition drive_url (fileId : jsstring) : jsstring :=
  lit "https://drive.google.com/file/d/" ++ fileId ++ lit "/view".

(** The request with [req.file] as the upload middleware left it. *)
Definition with_file (req : Request) (f : option File) : Request :=
  {| body := body req; file := f; x_forwarded_for := x_forwarded_for req;
     user_agent := user_agent req; remoteAddress := remoteAddress req;
     Date_now := Date_now req; toISOString := toISOString req;
     getMinutes := getMinutes req |}.

(** The routes of variant 1, where the request counter stands before them. *)
Inductive Route := PostFormulario | PostQuejas | Other.

(** ** Variant 1: ES modules, UUID keys, rate limiter *)

Module V1.
Section Handlers.
Variable env : Env.

(** [uploadToDrive(buffer, filename, mimetype, parentFolderId)].  Its
    first line, [if (!buffer) return { id: null, url: null }], never
    fires here: the buffer of an uploaded file is an object. *)
Definition uploadToDrive (buffer : list N) (filename mimetype : jsstring)
           (parentFolderId : value) : M (value * value) :=
  let* n := invoke env (drive_files_create filename [parentFolderId] mimetype buffer) in
  let fileId := drive_id env n in
  run invoke env (drive_permissions_create fileId) in
  ret (Str fileId, Str (drive_url fileId)).

Definition sendMail (subject : jsstring) : M nat :=
  let to := EMAIL_TO env in
  let cc := js_or (EMAIL_CC env) (Str []) in
  invoke env (transporter_sendMail
                {| mail_to := [to]; mail_cc := cc; mail_subject := subject |}).

Definition too_many : Response :=
  respond 429 (Text (lit "Demasiadas solicitudes. Intenta en 1 minuto.")).

Definition hits_key (req : Request) : jsstring :=
  let ip := js_or (js_or (forwarded_for req) (remoteAddress req)) (Str (lit "unknown")) in
  template ip ++ lit ":" ++ decimal (getMinutes req).

(** The middleware before every route; [next] is the rest of the chain. *)
Definition rate_limit (req : Request) (next : World -> Response * World)
  : World -> Response * World :=
  fun w =>
    let k := hits_key req in
    let w' := set_hits (<[k := default 0 (hits w !! k) + 1]> (hits w)) w in
    if 60 <? default 0 (hits w' !! k) then (too_many, w')
    else next w'.

Definition postulaciones_columns : list string :=
  ["id"; "nombre"; "email"; "telefono"; "cargo"; "mensaje";
   "drive_file_id"; "drive_file_url"; "ip"; "user_agent"]%string.

Definition quejas_columns : list string :=
  ["id"; "nombre"; "email"; "telefono"; "sucursal"; "asunto"; "mensaje";
   "drive_file_id"; "drive_file_url"; "ip"; "user_agent"]%string.

(** [app.post('/api/formulario', upload.single('archivo'), ...)] *)
Definition formulario (req : Request) : World -> Response * World :=
  try_catch
    (let b := default no_fields (body req) in
     let mensaje' := match mensaje b with undefined => Str [] | v => v end in
     if negb (truthy (nombre b)) || negb (truthy (email b))
        || negb (truthy (telefono b)) || negb (truthy (cargo b))
     then ret (respond 400 (Text (lit "Faltan campos obligatorios.")))
     else
       let parentFolderId := GOOGLE_FOLDER_ID env in
       let* up :=
         match file req with
         | Some f =>
             let* replaced := replace_method (nombre b) in
             let safeName := lit "HV_" ++ replaced ++ lit "_" ++ decimal (Date_now req) in
             uploadToDrive (buffer f) safeName (mimetype f) parentFolderId
         | None => ret (null, null)
         end in
       let drive_file_id := fst up in
       let drive_file_url := snd up in
       let* id := genId env in
       let ip := js_or (js_or (forwarded_for req) (remoteAddress req)) null in
       let ua := js_or (user_agent req) null in
       run invoke env
             (db_insert Postulaciones postulaciones_columns
                [id; nombre b; email b; telefono b; cargo b; mensaje';
                 drive_file_id; drive_file_url; ip; ua]) in
       run sendMail (lit "Nueva postulaci" ++ [0xF3] ++ lit "n: " ++ template (nombre b)
                       ++ lit " " ++ [0x2022] ++ lit " " ++ template (cargo b)) in
       ret (respond 200 (Text (lit "OK"))))
    (fun _ => respond 500 (Text (lit "Error del servidor."))).

(** [app.post('/api/quejas', upload.single('archivo'), ...)] *)
Definition quejas_handler (req : Request) : World -> Response * World :=
  try_catch
    (let b := default no_fields (body req) in
     if negb (truthy (nombre b)) || negb (truthy (email b))
        || negb (truthy (telefono b)) || negb (truthy (sucursal b))
        || negb (truthy (asunto b)) || negb (truthy (mensaje b))
     then ret (respond 400 (Text (lit "Faltan campos obligatorios.")))
     else
       let parentFolderId := js_or (GOOGLE_FOLDER_QUEJAS_ID env) (GOOGLE_FOLDER_ID env) in
       let* up :=
         match file req with
         | Some f =>
             let* replaced := replace_method (nombre b) in
             let safeName := lit "QUEJA_" ++ replaced ++ lit "_" ++ decimal (Date_now req) in
             uploadToDrive (buffer f) safeName (mimetype f) parentFolderId
         | None => ret (null, null)
         end in
       let drive_file_id := fst up in
       let drive_file_url := snd up in
       let* id := genId env in
       let ip := js_or (js_or (forwarded_for req) (remoteAddress req)) null in
       let ua := js_or (user_agent req) null in
       run invoke env
             (db_insert Quejas quejas_columns
                [id; nombre b; email b; telefono b; sucursal b; asunto b; mensaje b;
                 drive_file_id; drive_file_url; ip; ua]) in
       run sendMail (lit "Nuevo mensaje (" ++ template (asunto b) ++ lit ") de "
                       ++ template (nombre b)) in
       ret (respond 200 (Text (lit "OK"))))
    (fun _ => respond 500 (Text (lit "Error del servidor."))).

(** The two submission routes, by the table they write to. *)
Definition submit (kind : table) (req : Request) : World -> Response * World :=
  match kind with
  | Postulaciones => formulario req
  | Quejas => quejas_handler req
  end.

(** The columns of the insert of each route, and the values that come
    from the form. *)
Definition table_columns (kind : table) : list string :=
  match kind with
  | Postulaciones => postulaciones_columns
  | Quejas => quejas_columns
  end.

Definition inserted_values (kind : table) (b : Body) : list value :=
  match kind with
  | Postulaciones =>
      [nombre b; email b; telefono b; cargo b;
       match mensaje b with undefined => Str [] | v => v end]
  | Quejas =>
      [nombre b; email b; telefono b; sucursal b; asunto b; mensaje b]
  end.

(** The list inside [fileFilter]. *)
Definition allowed_mimetypes : list jsstring :=
  [ lit "application/pdf";
    lit "application/msword";
    lit "application/vnd.openxmlformats-officedocument.wordprocessingml.document";
    lit "image/jpeg";
    lit "image/png" ].

(** What a file filter gives its callback [cb(error, acceptFile)]; [None]
    is an argument that was not given. *)
Record Callback := {
  cb_error : option jsstring;
  cb_accept : option bool
}.

(** [fileFilter]: [cb(ok ? null : new Error('Tipo de archivo no permitido'))].
    The callback never gets its second argument. *)
Definition fileFilter (f : File) : Callback :=
  let ok := bool_decide (mimetype f ∈ allowed_mimetypes) in
  {| cb_error := if ok then None else Some (lit "Tipo de archivo no permitido");
     cb_accept := None |}.

(** [limits: { fileSize: 10 * 1024 * 1024 }] *)
Definition fileSize : N := 10 * 1024 * 1024.

(** [upload.single('archivo')] of multer, on the [archivo] part of the
    request if there is one: an error of the filter ends the request with
    that error; a file the filter does not accept (second argument false
    or not given) is skipped and [req.file] stays undefined; an accepted
    file beyond the size limit ends the request with an error. *)
Definition upload_single (part : option File) : jsstring + option File :=
  match part with
  | None => inr None
  | Some f =>
      match cb_error (fileFilter f), cb_accept (fileFilter f) with
      | Some e, _ => inl e
      | None, Some true =>
          if fileSize <? N.of_nat (length (buffer f))
          then inl (lit "File too large")
          else inr (Some f)
      | None, _ => inr None
      end
  end.

(** [app.post(path, upload.single('archivo'), handler)]: [req] is the
    request as it was sent, [file req] its [archivo] part.  An error of
    the upload is left to Express ([inl]); otherwise the handler runs on
    the request as the upload left it. *)
Definition posted (handler : Request -> World -> Response * World)
           (req : Request) (w : World) : jsstring + Response * World :=
  match upload_single (file req) with
  | inl e => inl e
  | inr f => inr (handler (with_file req f) w)
  end.

(** What [express.static('public')], mounted after the two routes,
    answers for any other request; it depends on the files on disk. *)
Variable static : Request -> Response.

Definition routed (rt : Route) (req : Request) : World -> Response * World :=
  match rt with
  | PostFormulario => formulario req
  | PostQuejas => quejas_handler req
  | Other => fun w => (static req, w)
  end.

(** The application: the counter first, then the route. *)
Definition app (rt : Route) (req : Request) : World -> Response * World :=
  rate_limit req (routed rt req).

(** The world after a sequence of requests, served one after the other. *)
Fixpoint serve (history : list (Route * Request)) (w : World) : World :=
  match history with
  | [] => w
  | (rt, req) :: rest => serve rest (snd (app rt req w))
  end.

(** How many requests of the history fall under the key [k]. *)
Definition arrivals (k : jsstring) (history : list (Route * Request)) : N :=
  N.of_nat (length (List.filter (fun p => bool_decide (hits_key (snd p) = k)) history)).

(** [hits.get(k) || 0] *)
Definition count (k : jsstring) (w : World) : N := default 0 (hits w !! k).

(** [hits.set(k, (hits.get(k) || 0) + 1)] *)
Definition bump (k : jsstring) (w : World) : World :=
  set_hits (<[k := count k w + 1]> (hits w)) w.

End Handlers.
End V1.

(** ** What variants 2 and 3 share *)

Definition envelope : jsstring := [0xD83D; 0xDCE9].
Definition check_mark : jsstring := [0x2705].
Definition cross_mark : jsstring := [0x274C].
Definition con_exito : jsstring := lit "con " ++ [0xE9] ++ lit "xito".
Definition nueva_postulacion : jsstring :=
  envelope ++ lit " Nueva postulaci" ++ [0xF3] ++ lit "n - ".

Definition postulaciones_columns : list string :=
  ["nombre"; "email"; "telefono"; "cargo"; "mensaje"; "archivo_url"; "fecha_envio"]%string.

Definition quejas_columns : list string :=
  ["nombre"; "email"; "telefono"; "sucursal"; "asunto"; "mensaje";
   "archivo_url"; "fecha_envio"]%string.

(** The columns and the values of the insert of each route. *)
Definition table_columns (kind : table) : list string :=
  match kind with
  | Postulaciones => postulaciones_columns
  | Quejas => quejas_columns
  end.

Definition inserted_values (kind : table) (b : Body) : list value :=
  match kind with
  | Postulaciones =>
      [nombre b; email b; telefono b; cargo b; js_or (mensaje b) (Str [])]
  | Quejas =>
      [nombre b; email b; telefono b; sucursal b; asunto b; js_or (mensaje b) (Str [])]
  end.

Definition byte_order_mark : N := 0xFEFF.

Section Shared.
Variable env : Env.

(** [enviarCorreo({ to, subject, html })] *)
Definition enviarCorreo (to : list value) (subject : jsstring) : M nat :=
  invoke env (transporter_sendMail
                {| mail_to := to; mail_cc := undefined; mail_subject := subject |}).

(** [[process.env.EMAIL_TO, process.env.EMAIL_CC].filter(Boolean)] *)
Definition recipients : list value :=
  List.filter truthy [EMAIL_TO env; EMAIL_CC env].

(** The two library functions of the export: [parser.parse(data)] of
    json2csv, given the field names and the delimiter the parser was
    built with, and [new Date(v).toLocaleString('es-CO', ...)]. *)
Variable Parser_parse : list jsstring -> jsstring -> list (list (jsstring * value)) -> jsstring.
Variable toLocaleString : value -> jsstring.

(** The object built for one row by [registros.map]. *)
Definition clean (r : Row) : list (jsstring * value) :=
  [ (lit "Nombre", column "nombre" r);
    (lit "Correo", column "email" r);
    (lit "Tel" ++ [0xE9] ++ lit "fono", column "telefono" r);
    (lit "Cargo", column "cargo" r);
    (lit "Mensaje", column "mensaje" r);
    (lit "Archivo (Google Drive)", column "archivo_url" r);
    (lit "Fecha de Env" ++ [0xED] ++ lit "o", Str (toLocaleString (column "fecha_envio" r))) ].

(** The keys of every such object, in order. *)
Definition csv_header : list jsstring :=
  [ lit "Nombre"; lit "Correo"; lit "Tel" ++ [0xE9] ++ lit "fono"; lit "Cargo";
    lit "Mensaje"; lit "Archivo (Google Drive)";
    lit "Fecha de Env" ++ [0xED] ++ lit "o" ].

(** [Object.keys(data[0])] *)
Definition keys_of_first (data : list (list (jsstring * value))) : list jsstring :=
  match data with
  | [] => []
  | o :: _ => map fst o
  end.

(** [app.get('/api/descargar-postulaciones', ...)], the same in both. *)
Definition descargar_postulaciones (_ : Request) : World -> Response * World :=
  try_catch
    (let* registros := select_postulaciones env in
     match registros with
     | [] => ret (respond 404 (Text (lit "No hay postulaciones registradas.")))
     | _ :: _ =>
         let data := map clean registros in
         let csv := Parser_parse (keys_of_first data) (lit ";") data in
         ret (respond 200 (Attachment (lit "postulaciones.csv") (byte_order_mark :: csv)))
     end)
    (fun _ => respond 500 (Text (lit "Error al generar el archivo."))).

End Shared.

(** ** Variant 2: attachment required for an application *)

Module V2.
Section Handlers.
Variable env : Env.

(** [app.post('/api/formulario', upload.single('archivo'), ...)] *)
Definition formulario (req : Request) : World -> Response * World :=
  try_catch
    (match body req with
     | None => throw TypeError
     | Some b =>
         match file req with
         | None => ret (respond 400 (Text (lit "Archivo requerido.")))
         | Some archivo =>
             let* n := invoke env (drive_files_create (originalname archivo) []
                                     (mimetype archivo) (buffer archivo)) in
             let fileId := drive_id env n in
             run invoke env (drive_files_update fileId (GOOGLE_FOLDER_ID env)) in
             run invoke env (drive_permissions_create fileId) in
             let fileUrl := drive_url fileId in
             let fecha := toISOString req in
             run invoke env
                   (db_insert Postulaciones postulaciones_columns
                      [nombre b; email b; telefono b; cargo b;
                       js_or (mensaje b) (Str []); Str fileUrl; Str fecha]) in
             run enviarCorreo env (recipients env)
                   (nueva_postulacion ++ template (nombre b)) in
             ret (respond 200 (Text (lit "Formulario enviado " ++ con_exito ++ lit ".")))
         end
     end)
    (fun _ => respond 500 (Text (lit "Error al procesar el formulario."))).

(** [app.post('/api/quejas', upload.single('archivo'), ...)] *)
Definition quejas_handler (req : Request) : World -> Response * World :=
  try_catch
    (match body req with
     | None => throw TypeError
     | Some b =>
         let* fileUrl :=
           match file req with
           | Some archivo =>
               let* n := invoke env (drive_files_create (originalname archivo) []
                                       (mimetype archivo) (buffer archivo)) in
               let fileId := drive_id env n in
               run invoke env
                     (drive_files_update fileId
                        (js_or (GOOGLE_FOLDER_QUEJAS_ID env) (GOOGLE_FOLDER_ID env))) in
               run invoke env (drive_permissions_create fileId) in
               ret (drive_url fileId)
           | None => ret []
           end in
         let fecha := toISOString req in
         run invoke env
               (db_insert Quejas quejas_columns
                  [nombre b; email b; telefono b; sucursal b; asunto b;
                   js_or (mensaje b) (Str []); Str fileUrl; Str fecha]) in
         run enviarCorreo env (recipients env)
               (lit "[QUEJA] " ++ template (asunto b) ++ lit " - " ++ template (nombre b)) in
         ret (respond 200 (Text (check_mark ++ lit " Queja enviada " ++ con_exito)))
     end)
    (fun _ => respond 500 (Text (cross_mark ++ lit " Error al enviar la queja."))).

(** The two submission routes, by the table they write to. *)
Definition submit (kind : table) (req : Request) : World -> Response * World :=
  match kind with
  | Postulaciones => formulario req
  | Quejas => quejas_handler req
  end.

(** The world after a sequence of submissions. *)
Fixpoint serve (history : list (table * Request)) (w : World) : World :=
  match history with
  | [] => w
  | (kind, req) :: rest => serve rest (snd (submit kind req w))
  end.

End Handlers.
End V2.

(** ** Variant 3: attachment optional, tables created at start *)

Module V3.
Section Handlers.
Variable env : Env.

Definition FOLDER_POSTULACIONES : value := GOOGLE_FOLDER_ID env.
Definition FOLDER_QUEJAS : value :=
  js_or (GOOGLE_FOLDER_QUEJAS_ID env) FOLDER_POSTULACIONES.

(** [subirAStorageDrive({ buffer, originalname, mimetype, folderId })] *)
Definition subirAStorageDrive (f : File) (folderId : value) : M jsstring :=
  let* n := invoke env (drive_files_create (originalname f) [] (mimetype f) (buffer f)) in
  let fileId := drive_id env n in
  run (if truthy folderId
       then invoke env (drive_files_update fileId folderId)
       else ret n) in
  run invoke env (drive_permissions_create fileId) in
  ret (drive_url fileId).

(** [app.post('/api/formulario', upload.single('archivo'), ...)] *)
Definition formulario (req : Request) : World -> Response * World :=
  try_catch
    (match body req with
     | None => throw TypeError
     | Some b =>
         let* fileUrl :=
           match file req with
           | Some f => subirAStorageDrive f FOLDER_POSTULACIONES
           | None => ret []
           end in
         let fecha := toISOString req in
         run invoke env
               (db_insert Postulaciones postulaciones_columns
                  [nombre b; email b; telefono b; cargo b;
                   js_or (mensaje b) (Str []); Str fileUrl; Str fecha]) in
         run (if truthy (EMAIL_TO env)
              then enviarCorreo env (recipients env)
                     (nueva_postulacion
                        ++ template (js_or (nombre b) (Str (lit "Sin nombre"))))
              else ret 0%nat) in
         ret (respond 200 (Json true (lit "Formulario enviado " ++ con_exito ++ lit ".")))
     end)
    (fun _ => respond 500 (Json false (lit "Error al procesar el formulario."))).

(** [app.post('/api/quejas', upload.single('archivo'), ...)] *)
Definition quejas_handler (req : Request) : World -> Response * World :=
  try_catch
    (match body req with
     | None => throw TypeError
     | Some b =>
         let* fileUrl :=
           match file req with
           | Some f => subirAStorageDrive f FOLDER_QUEJAS
           | None => ret []
           end in
         let fecha := toISOString req in
         run invoke env
               (db_insert Quejas quejas_columns
                  [nombre b; email b; telefono b; sucursal b; asunto b;
                   js_or (mensaje b) (Str []); Str fileUrl; Str fecha]) in
         run (if truthy (EMAIL_TO env)
              then enviarCorreo env (recipients env)
                     (lit "[QUEJA] "
                        ++ template (js_or (asunto b) (Str (lit "(Sin asunto)")))
                        ++ lit " - "
                        ++ template (js_or (nombre b) (Str (lit "Usuario"))))
              else ret 0%nat) in
         ret (respond 200 (Json true (check_mark ++ lit " Queja enviada " ++ con_exito)))
     end)
    (fun _ => respond 500 (Json false (cross_mark ++ lit " Error al enviar la queja."))).

(** The two submission routes, by the table they write to. *)
Definition submit (kind : table) (req : Request) : World -> Response * World :=
  match kind with
  | Postulaciones => formulario req
  | Quejas => quejas_handler req
  end.

(** The world after a sequence of submissions. *)
Fixpoint serve (history : list (table * Request)) (w : World) : World :=
  match history with
  | [] => w
  | (kind, req) :: rest => serve rest (snd (submit kind req w))
  end.

End Handlers.
End V3.

(** ** What a request did *)

(** The calls made between two worlds. *)
Definition calls_during (w w' : World) : list Entry :=
  drop (length (log w)) (log w').

(** The rows a table gained between two worlds. *)
Definition rows_added (t : table) (w w' : World) : list Row :=
  drop (length (rows (get_table t w))) (rows (get_table t w')).

Definition drive_failed (e : Entry) : bool := is_drive_call (call e) && threw e.
Definition mail_failed (e : Entry) : bool := is_mail_call (call e) && threw e.
Definition insert_done (e : Entry) : bool := is_db_insert (call e) && negb (threw e).

(** A field that is present and not empty. *)
Definition filled (v : value) : bool :=
  match v with
  | Str (_ :: _) => true
  | _ => false
  end.

(** A field that is missing or empty. *)
Definition blank (v : value) : bool :=
  match v with
  | undefined | Str [] => true
  | _ => false
  end.

(** [req.body || {}] *)
Definition fields (req : Request) : Body := default no_fields (body req).

Definition required_formulario (b : Body) : list value :=
  [nombre b; email b; telefono b; cargo b].

Definition required_quejas (b : Body) : list value :=
  [nombre b; email b; telefono b; sucursal b; asunto b; mensaje b].

(** ** The shapes of the properties *)

Definition Handler : Type := Env -> Request -> World -> Response * World.

Definition is_create (e : Entry) : bool :=
  match call e with
  | drive_files_create _ _ _ _ => true
  | _ => false
  end.

Definition touches_store_or_mail (e : Entry) : bool :=
  is_db_insert (call e) || is_mail_call (call e).

(** A request with a required field missing or empty is answered 400 and
    leaves the world as it was: no call, no row, no mail. *)
Definition rejects_missing_fields (required : Body -> list value) (h : Handler) : Prop :=
  forall env req w,
    existsb blank (required (fields req)) = true ->
    h env req w = (respond 400 (Text (lit "Faltan campos obligatorios.")), w).

(** A failed upload ends the request with 500, before the store and the
    mail transport are reached. *)
Definition aborts_when_upload_fails (h : Handler) : Prop :=
  forall env req w,
    let out := h env req w in
    existsb drive_failed (calls_during w (snd out)) = true ->
    is_Some (file req)
    /\ status (fst out) = 500
    /\ postulaciones (snd out) = postulaciones w
    /\ quejas (snd out) = quejas w
    /\ outbox (snd out) = outbox w
    /\ existsb touches_store_or_mail (calls_during w (snd out)) = false.

(** A failed send ends the request with 500 although the row is stored. *)
Definition fails_when_mail_fails (t : table) (h : Handler) : Prop :=
  forall env req w,
    let out := h env req w in
    existsb mail_failed (calls_during w (snd out)) = true ->
    status (fst out) = 500
    /\ length (rows_added t w (snd out)) = 1%nat
    /\ existsb insert_done (calls_during w (snd out)) = true
    /\ outbox (snd out) = outbox w.

(** Without a file the Drive is not called, and a stored row has [none]
    in the column [url]. *)
Definition no_file_no_upload (url : string) (none : value) (h : Handler) : Prop :=
  forall env req w,
    file req = None ->
    let out := h env req w in
    existsb (fun e => is_drive_call (call e)) (calls_during w (snd out)) = false
    /\ drive (snd out) = drive w
    /\ Forall (fun r => column url r = none) (rows_added Postulaciones w (snd out))
    /\ (status (fst out) = 200 -> length (rows_added Postulaciones w (snd out)) = 1%nat).

(** An absent message is stored as the empty string. *)
Definition stores_empty_message (h : Handler) : Prop :=
  forall env req w,
    mensaje (fields req) = undefined ->
    let out := h env req w in
    Forall (fun r => column "mensaje" r = Str []) (rows_added Postulaciones w (snd out))
    /\ (status (fst out) = 200 -> length (rows_added Postulaciones w (snd out)) = 1%nat).

(** Every run of white space replaced by one underscore, in the words of
    the specification: cut the name into its maximal runs of white space
    and of other units, and write an underscore for each run of the first
    kind. *)
Fixpoint runs (s : jsstring) : list (bool * jsstring) :=
  match s with
  | [] => []
  | c :: r =>
      match runs r with
      | (sp, t) :: rest =>
          if Bool.eqb sp (is_space c) then (sp, c :: t) :: rest
          else (is_space c, [c]) :: (sp, t) :: rest
      | [] => [(is_space c, [c])]
      end
  end.

Definition underscore_for_run (p : bool * jsstring) : jsstring :=
  if fst p then [underscore] else snd p.

Definition underscore_each_run (s : jsstring) : jsstring :=
  concat (map underscore_for_run (runs s)).

(** The name the specification gives the uploaded object. *)
Definition derived_name (prefix : jsstring) (name : jsstring) (timestamp : N) : jsstring :=
  prefix ++ lit "_" ++ underscore_each_run name ++ lit "_" ++ decimal timestamp.

(** The first call of the request creates the object [name] from the
    uploaded file, and no other object is created. *)
Definition creates_object (name : jsstring) (parents : list value) (f : File)
           (during : list Entry) : Prop :=
  exists failed rest,
    during = {| call := drive_files_create name parents (mimetype f) (buffer f);
                threw := failed |} :: rest
    /\ existsb is_create rest = false.

(** The object of a valid submission is named after the submitter. *)
Definition names_object_after_submitter (prefix : jsstring)
           (required : Body -> list value) (folder : Env -> value) (h : Handler) : Prop :=
  forall env req w f s,
    file req = Some f ->
    nombre (fields req) = Str s ->
    forallb truthy (required (fields req)) = true ->
    creates_object (derived_name prefix s (Date_now req)) [folder env] f
      (calls_during w (snd (h env req w))).

(** The object is named after the uploaded file. *)
Definition names_object_after_file (h : Handler) : Prop :=
  forall env req w f,
    file req = Some f ->
    is_Some (body req) ->
    creates_object (originalname f) [] f (calls_during w (snd (h env req w))).

(** The row is stored, the send throws, the answer is 500. *)
Definition stored_then_mail_failed (w : World) (out : Response * World) : Prop :=
  existsb insert_done (calls_during w (snd out)) = true
  /\ existsb mail_failed (calls_during w (snd out)) = true
  /\ status (fst out) = 500
  /\ status (fst out) <> 200.








(** A field that was sent, be it empty. *)
Definition present (v : value) : bool := negb (is_undefined v).

(** The fields of a complaint that variants 2 and 3 hand to the insert as
    they are (the message goes in as [mensaje || '']). *)
Definition inserted_quejas (b : Body) : list value :=
  [nombre b; email b; telefono b; sucursal b; asunto b].


(** ** Sample data *)

Definition sample_env (fails : nat -> bool) : Env :=
  {| GOOGLE_FOLDER_ID := Str (lit "hv-folder");
     GOOGLE_FOLDER_QUEJAS_ID := undefined;
     EMAIL_TO := Str (lit "rrhh@casa.co");
     EMAIL_CC := undefined;
     ext_fails := fails;
     drive_id := fun n => lit "file-" ++ decimal (N.of_nat n);
     randomUUID := fun n => lit "uuid-" ++ decimal (N.of_nat n) |}.

Definition never : nat -> bool := fun _ => false.

Definition empty_table (auto : bool) : Table :=
  {| autoincrement := auto; rows := []; sequence := 0 |}.

Definition empty_world (auto : bool) : World :=
  {| hits := ∅; log := []; drive := [];
     postulaciones := empty_table auto; quejas := empty_table auto;
     outbox := []; uuids_drawn := 0 |}.

Definition ana : Body :=
  {| nombre := Str (lit "Ana Maria  Paz"); email := Str (lit "ana@x.com");
     telefono := Str (lit "3000000000"); cargo := Str (lit "Cajera");
     sucursal := Str (lit "Centro"); asunto := Str (lit "Demora");
     mensaje := Str (lit "Muy lento") |}.

Definition cv : File :=
  {| originalname := lit "cv.pdf"; mimetype := lit "application/pdf";
     buffer := [37; 80; 68; 70] |}.

Definition request_of (b : option Body) (f : option File) : Request :=
  {| body := b; file := f; x_forwarded_for := undefined;
     user_agent := Str (lit "curl"); remoteAddress := Str (lit "10.0.0.7");
     Date_now := 1700000000000; toISOString := lit "2023-11-14T22:13:20.000Z";
     getMinutes := 13 |}.


Definition fails_at (k : nat) : nat -> bool := fun n => Nat.eqb n k.

(** A form sent with every input left empty. *)
Definition blank_form : Body :=
  {| nombre := Str []; email := Str []; telefono := Str []; cargo := Str [];
     sucursal := Str []; asunto := Str []; mensaje := Str [] |}.

(** An application without the optional message. *)
Definition ana_without_message : Body :=
  {| nombre := nombre ana; email := email ana; telefono := telefono ana;
     cargo := cargo ana; sucursal := undefined; asunto := undefined;
     mensaje := undefined |}.

(** Stand-ins for the two library functions of the export, for the
    examples: cells joined by the delimiter, lines by a line feed. *)
Definition join (sep : jsstring) (l : list jsstring) : jsstring :=
  match l with
  | [] => []
  | x :: r => x ++ concat (map (fun y => sep ++ y) r)
  end.

Definition plain_csv (names : list jsstring) (delimiter : jsstring)
           (data : list (list (jsstring * value))) : jsstring :=
  join [10] (join delimiter names
             :: map (fun o => join delimiter (map (fun p => template (snd p)) o)) data).

Definition two_applications : Table :=
  {| autoincrement := true;
     rows := [ [("id"%string, Num 1); ("nombre"%string, Str (lit "Ana"));
                ("fecha_envio"%string, Str (lit "2023-11-14T22:13:20.000Z"))];
               [("id"%string, Num 2); ("nombre"%string, Str (lit "Luz"));
                ("fecha_envio"%string, Str (lit "2024-01-02T08:00:00.000Z"))] ];
     sequence := 2 |}.

(** A stand-in for the static files: nothing is found. *)
Definition nothing_found : Request -> Response :=
  fun _ => respond 404 (Text (lit "Not Found")).

Definition page_request : Route * Request := (Other, request_of None None).

Definition fifty_nine_pages : list (Route * Request) := replicate 59 page_request.

(** A request from another address. *)
Definition other_page : Route * Request :=
  (Other,
   {| body := None; file := None; x_forwarded_for := Str (lit "192.168.1.9, 10.0.0.1");
      user_agent := undefined; remoteAddress := Str (lit "10.0.0.1");
      Date_now := 1700000001000; toISOString := lit "2023-11-14T22:13:21.000Z";
      getMinutes := 13 |}).

(** A counter already above the threshold. *)
Definition busy_world : World :=
  set_hits {[ lit "10.0.0.7:13" := 61 ]} (empty_world false).

(** ** Further shapes: the pipeline as a whole *)

(** Where a submission stands: still uploading, row stored, mail sent. *)
Inductive Stage := Uploading | Stored | Announced.

(** The calls of one submission come in the order of the pipeline: Drive
    calls, then at most one insert, then at most one send; and a call that
    throws is the last one. *)
Fixpoint in_order (s : Stage) (l : list Entry) : bool :=
  match l with
  | [] => true
  | e :: r =>
      let after (s' : Stage) :=
        if threw e then (match r with [] => true | _ :: _ => false end)
        else in_order s' r in
      match s, call e with
      | Uploading, drive_files_create _ _ _ _ => after Uploading
      | Uploading, drive_files_update _ _ => after Uploading
      | Uploading, drive_permissions_create _ => after Uploading
      | Uploading, db_insert _ _ _ => after Stored
      | Stored, transporter_sendMail _ => after Announced
      | _, _ => false
      end
  end.

Definition follows_pipeline (h : Handler) : Prop :=
  forall env req w,
    in_order Uploading (calls_during w (snd (h env req w))) = true.

Definition insert_failed (e : Entry) : bool := is_db_insert (call e) && threw e.

(** An answer 200 means that nothing threw, that one row was stored in
    [t], and that one mail left when [mails] says so. *)
Definition success_is_complete (t : table) (mails : Env -> bool) (h : Handler) : Prop :=
  forall env req w,
    let out := h env req w in
    status (fst out) = 200 ->
    existsb threw (calls_during w (snd out)) = false
    /\ existsb insert_done (calls_during w (snd out)) = true
    /\ length (rows_added t w (snd out)) = 1%nat
    /\ length (outbox (snd out))
       = (length (outbox w) + (if mails env then 1 else 0))%nat.

(** No call throws from this world on. *)
Definition all_calls_succeed (env : Env) (w : World) : Prop :=
  forall n : nat, (length (log w) <= n)%nat -> ext_fails env n = false.


Definition has_body (req : Request) : bool :=
  match body req with Some _ => true | None => false end.

Definition has_file (req : Request) : bool :=
  match file req with Some _ => true | None => false end.

(** A failed insert ends the request with 500; nothing is stored or sent,
    and the object uploaded before stays on the Drive, readable by anyone. *)
Definition leaves_upload_behind (h : Handler) : Prop :=
  forall env req w,
    let out := h env req w in
    existsb insert_failed (calls_during w (snd out)) = true ->
    status (fst out) = 500
    /\ rows_added Postulaciones w (snd out) = []
    /\ rows_added Quejas w (snd out) = []
    /\ outbox (snd out) = outbox w
    /\ existsb (fun e => is_mail_call (call e)) (calls_during w (snd out)) = false
    /\ length (drive (snd out))
       = (length (drive w) + (if has_file req then 1 else 0))%nat
    /\ (has_file req = true ->
        exists d, last (drive (snd out)) = Some d /\ anyone_can_read d = true).

(** A URL stored in the column [url] of a new row of [t] is the link of an
    object that is on the Drive and readable by anyone. *)
Definition stored_url_is_public (url : string) (t : table) (h : Handler) : Prop :=
  forall env req w,
    let out := h env req w in
    Forall (fun r =>
              forall u, column url r = Str u -> u <> [] ->
                        exists d, In d (drive (snd out))
                                  /\ anyone_can_read d = true
                                  /\ u = drive_url (file_id d))
           (rows_added t w (snd out)).

(** A request without a parsed body is answered 500 and nothing happens. *)
Definition needs_body (h : Handler) : Prop :=
  forall env req w,
    body req = None ->
    status (fst (h env req w)) = 500 /\ snd (h env req w) = w.

(** Every send of the request goes to [to] with copy to [cc]. *)
Definition addresses_mail (to : Env -> list value) (cc : Env -> value) (h : Handler) : Prop :=
  forall env req w,
    Forall (fun e => forall m, call e = transporter_sendMail m ->
                               mail_to m = to env /\ mail_cc m = cc env)
           (calls_during w (snd (h env req w))).

(** Every move of an uploaded object goes to [folder]; there is none when
    [folder] is not set and [optional] holds. *)
Definition moves_to (folder : Env -> value) (optional : bool) (h : Handler) : Prop :=
  forall env req w,
    Forall (fun e => forall fid p, call e = drive_files_update fid p -> p = folder env)
           (calls_during w (snd (h env req w)))
    /\ (optional = true -> truthy (folder env) = false ->
        existsb (fun e => match call e with drive_files_update _ _ => true | _ => false end)
                (calls_during w (snd (h env req w))) = false).

(** [ip] of the rate limiter: the first entry of [X-Forwarded-For], else
    the socket address, else ['unknown']. *)
Definition client_address (req : Request) : jsstring :=
  template (js_or (js_or (forwarded_for req) (remoteAddress req)) (Str (lit "unknown"))).

(** The keys under which the requests of a history are counted. *)
Definition keys_of (history : list (Route * Request)) : gset jsstring :=
  list_to_set (map (fun p => V1.hits_key (snd p)) history).

(** A valid application without a message is stored with the empty string
    for its message when no call throws. *)
Definition persists_empty_message (ok : Request -> bool) (h : Handler) : Prop :=
  forall env req w,
    ok req = true ->
    mensaje (fields req) = undefined ->
    all_calls_succeed env w ->
    let out := h env req w in
    status (fst out) = 200
    /\ exists r, rows_added Postulaciones w (snd out) = [r]
                 /\ column "mensaje" r = Str [].

(** A submission with one of [inserted] missing gets as far as the insert,
    which the client refuses: the answer is 500, no row, no mail. *)
Definition refuses_missing_field (ok : Request -> bool) (inserted : Body -> list value)
           (h : Handler) : Prop :=
  forall env req w b,
    ok req = true ->
    body req = Some b ->
    existsb is_undefined (inserted b) = true ->
    let out := h env req w in
    status (fst out) = 500
    /\ rows_added Postulaciones w (snd out) = []
    /\ rows_added Quejas w (snd out) = []
    /\ outbox (snd out) = outbox w
    /\ existsb (fun e => is_mail_call (call e)) (calls_during w (snd out)) = false.

(** On a route of variant 1 the handler never sees the attachment, so
    nothing is ever uploaded. *)
Definition never_uploads (handler : Env -> Request -> World -> Response * World) : Prop :=
  forall env req w,
    match V1.posted (handler env) req w with
    | inl e =>
        exists f, file req = Some f
                  /\ bool_decide (mimetype f ∈ V1.allowed_mimetypes) = false
                  /\ e = lit "Tipo de archivo no permitido"
    | inr out =>
        out = handler env (with_file req None) w
        /\ existsb (fun e => is_drive_call (call e)) (calls_during w (snd out)) = false
        /\ drive (snd out) = drive w
    end.

(** ** Variant 2: the CORS middleware *)

Module Cors.

Definition ALLOWED_ORIGINS : list jsstring :=
  [ lit "https://casa-kumis-frontend.vercel.app";
    lit "https://casa-kumis-frontend.onrender.com";
    lit "http://localhost:5173";
    lit "http://127.0.0.1:5173";
    lit "http://localhost:5500" ].

(** [ALLOWED_ORIGINS.includes(origin)] *)
Definition includes (origin : value) : bool :=
  match origin with
  | Str s => bool_decide (s ∈ ALLOWED_ORIGINS)
  | _ => false
  end.

(** [res.header(name, v)]: the headers set so far, the last one first. *)
Definition header (name : string) (v : jsstring)
           (headers : list (string * jsstring)) : list (string * jsstring) :=
  (name, v) :: headers.

(** The value a response carries for a header: the one set last. *)
Fixpoint get (name : string) (headers : list (string * jsstring)) : option jsstring :=
  match headers with
  | [] => None
  | (k, v) :: r => if String.eqb k name then Some v else get name r
  end.

Inductive Verdict :=
| sendStatus (code : N)
| next.

(** The middleware: the headers it sets, and whether it answers or hands
    the request on. *)
Definition cors (origin : value) (method : jsstring)
  : list (string * jsstring) * Verdict :=
  let h0 :=
    if negb (truthy origin) || includes origin
    then header "Access-Control-Allow-Origin" (template (js_or origin (Str (lit "*")))) []
    else [] in
  let h1 := header "Vary" (lit "Origin") h0 in
  let h2 := header "Access-Control-Allow-Methods" (lit "GET,POST,OPTIONS") h1 in
  let h3 := header "Access-Control-Allow-Headers" (lit "Content-Type, Authorization") h2 in
  if bool_decide (method = lit "OPTIONS") then (h3, sendStatus 204) else (h3, next).

End Cors.

(** Without [EMAIL_TO] nothing is sent. *)
Definition silent_without_recipient (h : Handler) : Prop :=
  forall env req w,
    truthy (EMAIL_TO env) = false ->
    existsb (fun e => is_mail_call (call e)) (calls_during w (snd (h env req w))) = false
    /\ outbox (snd (h env req w)) = outbox w.

Definition is_digit (c : N) : bool := (48 <=? c) && (c <=? 57).

(** * Properties *)

Arguments lit : simpl never.
Arguments decimal : simpl never.
Arguments template : simpl never.
Arguments replace_spaces : simpl never.
Arguments drive_url : simpl never.
Arguments sql_insert : simpl never.
Arguments js_or : simpl never.

(** ** Reading the log *)

Lemma calls_during_app w w' l :
  log w' = log w ++ l -> calls_during w w' = l.
Proof.
  unfold calls_during. intros ->. apply drop_app_length.
Qed.

Lemma calls_during_same w w' :
  log w' = log w -> calls_during w w' = [].
Proof.
  intros H. apply calls_during_app. now rewrite app_nil_r.
Qed.

Lemma rows_added_app t w w' l :
  rows (get_table t w') = rows (get_table t w) ++ l -> rows_added t w w' = l.
Proof.
  unfold rows_added. intros ->. apply drop_app_length.
Qed.

Lemma rows_added_same t w w' :
  rows (get_table t w') = rows (get_table t w) -> rows_added t w w' = [].
Proof.
  intros H. apply rows_added_app. now rewrite app_nil_r.
Qed.

Lemma rows_sql_insert_auto columns args t :
  autoincrement t = true -> names_id columns = false ->
  rows (sql_insert columns args t)
  = rows t ++ [("id"%string, Num (Z.of_N (next_rowid t))) :: zip columns (map to_sql args)].
Proof.
  intros Ha Hn. unfold sql_insert. now rewrite Ha, Hn.
Qed.


Lemma rows_sql_insert columns args t :
  exists r, rows (sql_insert columns args t) = rows t ++ [r]
            /\ forall c, c <> "id"%string ->
                         column c r = column c (zip columns (map to_sql args)).
Proof.
  unfold sql_insert. destruct (autoincrement t && negb (names_id columns)); simpl.
  - eexists. split; [reflexivity|]. intros c Hc. cbn [column].
    destruct (String.eqb_spec "id" c); congruence.
  - eexists. split; [reflexivity|]. reflexivity.
Qed.

(** Symbolic execution of a handler: decide the next call's outcome,
    then simplify. *)
Ltac next_outcome :=
  match goal with
  | |- context [ext_fails ?e (length (log ?w))] =>
      let F := fresh "Hcall" in destruct (ext_fails e (length (log w))) eqn:F
  | |- context [ext_fails ?e (length ?l)] =>
      let F := fresh "Hcall" in destruct (ext_fails e (length l)) eqn:F
  end.

Ltac unfold_effects :=
  unfold V1.uploadToDrive, V1.sendMail, V3.subirAStorageDrive, enviarCorreo,
    select_postulaciones, replace_method, genId, invoke, bind, ret, throw in *.

Ltac split_input :=
  match goal with
  | |- context [match body ?r with _ => _ end] => destruct (body r) eqn:?
  | |- context [match file ?r with _ => _ end] => destruct (file r) eqn:?
  | |- context [if truthy ?v then _ else _] => destruct (truthy v) eqn:?
  | |- context [if ?a || ?b then _ else _] => destruct (a || b) eqn:?
  | |- context [match nombre ?b with _ => _ end] => destruct (nombre b) eqn:?
  end.

Ltac exec :=
  unfold_effects; cbn;
  repeat (first [split_input | next_outcome]; cbn).

(** Run a handler on all its paths; each goal is about one path. *)
Ltac paths h :=
  unfold h, try_catch, fields in *; cbn;
  exec.

(** Bring what the log and the tables gained into the open. *)
Ltac gained :=
  unfold calls_during, rows_added in *; cbn in *;
  rewrite <- ?app_assoc in *; rewrite ?drop_app_length, ?drop_all in *;
  cbn in *.


(** What is known of a field that passed a test. *)
Lemma filled_truthy v : filled v = true -> truthy v = true.
Proof. destruct v as [| |[|]|]; simpl; congruence. Qed.

Lemma filled_text v : filled v = true -> exists s, v = Str s.
Proof. destruct v as [| |[|]|]; simpl; try congruence; eauto. Qed.

Lemma filled_defined v : filled v = true -> is_undefined v = false.
Proof. destruct v; simpl; congruence. Qed.

Lemma present_defined v : present v = true -> is_undefined v = false.
Proof. unfold present. now destruct (is_undefined v). Qed.

Lemma js_or_defined a d : is_undefined d = false -> is_undefined (js_or a d) = false.
Proof. unfold js_or. intros Hd. destruct (truthy a) eqn:Ht; [|exact Hd]. now destruct a. Qed.

(** A path on which a call threw, although no call throws. *)
Ltac impossible_throw Hall :=
  match goal with
  | Hc : ext_fails _ ?n = true |- _ =>
      rewrite Hall in Hc by (rewrite ?length_app; lia); discriminate Hc
  end.

(** The arguments of the insert are known to be defined. *)
Ltac defined_args :=
  repeat first
    [ match goal with
      | H : is_undefined ?v = false |- context [is_undefined ?v] => rewrite H
      end
    | rewrite js_or_defined by reflexivity ];
  cbn.


(** The fields that passed [forallb], one hypothesis each. *)
Ltac each_field Hok lemma :=
  cbn in Hok;
  repeat (apply andb_true_iff in Hok;
          let Hf := fresh "Hf" in
          destruct Hok as [Hf Hok];
          pose proof (lemma _ Hf)).

(** ** A failed upload *)

Ltac upload_failure h :=
  intros env req w; cbn zeta; paths h; intros H; gained;
  try discriminate H; repeat split; solve [reflexivity | eauto].

Lemma v1_formulario_upload : aborts_when_upload_fails V1.formulario.
Proof. upload_failure V1.formulario. Qed.

Lemma v1_quejas_upload : aborts_when_upload_fails V1.quejas_handler.
Proof. upload_failure V1.quejas_handler. Qed.

Lemma v2_formulario_upload : aborts_when_upload_fails V2.formulario.
Proof. upload_failure V2.formulario. Qed.

Lemma v2_quejas_upload : aborts_when_upload_fails V2.quejas_handler.
Proof. upload_failure V2.quejas_handler. Qed.

Lemma v3_formulario_upload : aborts_when_upload_fails V3.formulario.
Proof. upload_failure V3.formulario. Qed.

Lemma v3_quejas_upload : aborts_when_upload_fails V3.quejas_handler.
Proof. upload_failure V3.quejas_handler. Qed.

(** ** A failed send *)

(** Name the row an insert appended. *)
Ltac stored :=
  repeat match goal with
  | |- context [rows (sql_insert ?c ?a ?t)] =>
      let r := fresh "row" in
      let Hr := fresh "Hrow" in
      let Hc := fresh "Hcol" in
      destruct (rows_sql_insert c a t) as (r & Hr & Hc); rewrite Hr
  end.

Ltac mail_failure h :=
  intros env req w; cbn zeta; paths h; intros H; gained;
  try discriminate H; stored; gained; repeat split; reflexivity.

Lemma v1_formulario_mail : fails_when_mail_fails Postulaciones V1.formulario.
Proof. mail_failure V1.formulario. Qed.

Lemma v1_quejas_mail : fails_when_mail_fails Quejas V1.quejas_handler.
Proof. mail_failure V1.quejas_handler. Qed.

Lemma v2_formulario_mail : fails_when_mail_fails Postulaciones V2.formulario.
Proof. mail_failure V2.formulario. Qed.

Lemma v2_quejas_mail : fails_when_mail_fails Quejas V2.quejas_handler.
Proof. mail_failure V2.quejas_handler. Qed.

Lemma v3_formulario_mail : fails_when_mail_fails Postulaciones V3.formulario.
Proof. mail_failure V3.formulario. Qed.

Lemma v3_quejas_mail : fails_when_mail_fails Quejas V3.quejas_handler.
Proof. mail_failure V3.quejas_handler. Qed.

Ltac one_row :=
  match goal with
  | Hcol : forall c, c <> "id"%string -> column c ?r = _ |- Forall _ [?r] =>
      constructor; [rewrite Hcol by discriminate; cbn | constructor]
  end.

Ltac empty_message h :=
  intros env req w Hm; cbn zeta; paths h; cbn in Hm;
  try rewrite Hm; gained; stored; gained;
  repeat split; try discriminate; try reflexivity;
  try one_row; try constructor; try reflexivity.

Lemma v1_formulario_message : stores_empty_message V1.formulario.
Proof. empty_message V1.formulario. Qed.

Lemma v2_formulario_message : stores_empty_message V2.formulario.
Proof. empty_message V2.formulario. Qed.

Lemma v3_formulario_message : stores_empty_message V3.formulario.
Proof. empty_message V3.formulario. Qed.

(** The one row of a request that went through, and its message. *)
Ltac message_stored Hall :=
  unfold_effects; cbn; defined_args;
  repeat (first [split_input | next_outcome]; cbn; defined_args);
  try solve [impossible_throw Hall];
  gained; stored; gained;
  (split; [reflexivity|]);
  eexists; (split; [reflexivity|]);
  match goal with
  | Hc : forall c, c <> "id"%string -> column c _ = _ |- _ => rewrite Hc by discriminate
  end;
  reflexivity.

Lemma v1_formulario_message_kept :
  persists_empty_message
    (fun req => forallb filled (required_formulario (fields req))) V1.formulario.
Proof.
  intros env req w Hok Hm Hall. cbn zeta.
  unfold required_formulario, fields in Hok, Hm.
  unfold V1.formulario, try_catch.
  each_field Hok filled_defined.
  destruct (filled_text _ Hf) as [s Hs].
  rewrite (filled_truthy _ Hf), (filled_truthy _ Hf0), (filled_truthy _ Hf1),
    (filled_truthy _ Hf2), Hm, Hs.
  message_stored Hall.
Qed.

Ltac message_kept h :=
  intros env req w Hok Hm Hall; cbn zeta;
  repeat (apply andb_true_iff in Hok; destruct Hok as [Hok ?Hf]);
  unfold has_body, has_file, required_formulario, fields in *;
  unfold h, try_catch;
  destruct (body req); [|discriminate];
  try (destruct (file req); [|discriminate]);
  match goal with
  | Hp : forallb present _ = true |- _ => each_field Hp present_defined
  end;
  cbn in Hm; rewrite Hm;
  message_stored Hall.

Lemma v2_formulario_message_kept :
  persists_empty_message
    (fun req => has_body req && has_file req
                && forallb present (required_formulario (fields req)))
    V2.formulario.
Proof. message_kept V2.formulario. Qed.

Lemma v3_formulario_message_kept :
  persists_empty_message
    (fun req => has_body req && forallb present (required_formulario (fields req)))
    V3.formulario.
Proof. message_kept V3.formulario. Qed.

(** C10. In every variant, when the message of an application is absent,
    the row the request adds to [postulaciones], if any, holds the empty
    string in its column [mensaje], and a request answered 200 has added
    exactly one row.  And the row is added: when no call throws, an
    application that its handler lets through (the required fields filled
    in variant 1; a file and the four required fields sent in variant 2;
    the four required fields sent in variant 3) is answered 200 and has
    added one row to [postulaciones], whose [mensaje] is the empty
    string. *)
Theorem absent_message_stored_empty :
  stores_empty_message V1.formulario
  /\ stores_empty_message V2.formulario
  /\ stores_empty_message V3.formulario
  /\ persists_empty_message
       (fun req => forallb filled (required_formulario (fields req))) V1.formulario
  /\ persists_empty_message
       (fun req => has_body req && has_file req
                   && forallb present (required_formulario (fields req)))
       V2.formulario
  /\ persists_empty_message
       (fun req => has_body req && forallb present (required_formulario (fields req)))
       V3.formulario.
Proof.
  exact (conj v1_formulario_message
          (conj v2_formulario_message
            (conj v3_formulario_message
              (conj v1_formulario_message_kept
                (conj v2_formulario_message_kept v3_formulario_message_kept))))).
Qed.

Lemma absent_message_stored_empty_witness :
  (let w := empty_world true in
   let req := request_of (Some ana_without_message) None in
   let out := V3.formulario (sample_env never) req w in
   status (fst out) = 200
   /\ exists r, rows_added Postulaciones w (snd out) = [r]
                /\ column "mensaje" r = Str [])
  /\ (let w := empty_world false in
      let req := request_of (Some ana_without_message) None in
      let out := V1.formulario (sample_env never) req w in
      status (fst out) = 200
      /\ exists r, rows_added Postulaciones w (snd out) = [r]
                   /\ column "mensaje" r = Str []).
Proof.
  assert (Hall : forall w, all_calls_succeed (sample_env never) w)
    by (intros w n _; reflexivity).
  destruct absent_message_stored_empty as (_ & _ & _ & H1 & _ & H3).
  split.
  - exact (H3 (sample_env never) (request_of (Some ana_without_message) None)
             (empty_world true) eq_refl eq_refl (Hall _)).
  - exact (H1 (sample_env never) (request_of (Some ana_without_message) None)
             (empty_world false) eq_refl eq_refl (Hall _)).
Defined.

(** ** No attachment *)

Ltac no_file h :=
  intros env req w Hf; cbn zeta; unfold h, try_catch; rewrite Hf; cbn; exec;
  gained; stored; gained;
  repeat split; try discriminate; try reflexivity;
  try one_row; try constructor; try reflexivity.

Lemma v1_formulario_no_file :
  no_file_no_upload "drive_file_url" null V1.formulario.
Proof. no_file V1.formulario. Qed.









(** ** Missing fields *)

Lemma blank_not_truthy v : blank v = true -> truthy v = false.
Proof. destruct v as [| |[|]|]; simpl; congruence. Qed.

Lemma blank_among l :
  existsb blank l = true -> existsb (fun v => negb (truthy v)) l = true.
Proof.
  induction l as [|v l IH]; simpl; [congruence|].
  intros [H|H]%orb_true_iff.
  - now rewrite (blank_not_truthy v H).
  - rewrite (IH H). apply orb_true_r.
Qed.

(** C1 (as amended). In variant 1, a submission on either route with a
    required field of its kind missing or empty is answered with the
    missing-fields error, status 400, and nothing else happens: the world
    after is the world before, so no Drive call, no insert and no send. *)
Theorem missing_fields_rejected_in_v1 :
  rejects_missing_fields required_formulario V1.formulario
  /\ rejects_missing_fields required_quejas V1.quejas_handler.
Proof.
  split; intros env req w H; apply blank_among in H;
    unfold required_formulario, required_quejas, fields in H; cbn in H;
    rewrite orb_false_r in H.
  - unfold V1.formulario, try_catch. rewrite <- !orb_assoc, H. reflexivity.
  - unfold V1.quejas_handler, try_catch. rewrite <- !orb_assoc, H. reflexivity.
Qed.

Lemma missing_fields_rejected_in_v1_witness :
  V1.formulario (sample_env never) (request_of (Some blank_form) (Some cv)) (empty_world false)
  = (respond 400 (Text (lit "Faltan campos obligatorios.")), empty_world false)
  /\ V1.quejas_handler (sample_env never) (request_of None None) (empty_world false)
     = (respond 400 (Text (lit "Faltan campos obligatorios.")), empty_world false).
Proof.
  split.
  - apply (proj1 missing_fields_rejected_in_v1). reflexivity.
  - apply (proj2 missing_fields_rejected_in_v1). reflexivity.
Defined.

(** C1, as stated, fails in variant 3: a complaint whose fields are all
    empty is stored and announced, and answered 200. *)
Lemma v3_stores_blank_complaint :
  let req := request_of (Some blank_form) None in
  let out := V3.quejas_handler (sample_env never) req (empty_world true) in
  existsb blank (required_quejas (fields req)) = true
  /\ status (fst out) = 200
  /\ status (fst out) <> 400
  /\ existsb insert_done (calls_during (empty_world true) (snd out)) = true
  /\ length (rows (quejas (snd out))) = 1%nat
  /\ length (outbox (snd out)) = 1%nat.
Proof. vm_compute. repeat split; congruence. Qed.

(** C3. On every route of every variant, when a call of the upload step
    throws, the request had an attachment, it is answered 500, neither
    table gains a row, the outbox gains no mail, and neither an insert nor
    a send is attempted. *)
Theorem upload_failure_aborts_request :
  aborts_when_upload_fails V1.formulario
  /\ aborts_when_upload_fails V1.quejas_handler
  /\ aborts_when_upload_fails V2.formulario
  /\ aborts_when_upload_fails V2.quejas_handler
  /\ aborts_when_upload_fails V3.formulario
  /\ aborts_when_upload_fails V3.quejas_handler.
Proof.
  exact (conj v1_formulario_upload (conj v1_quejas_upload
          (conj v2_formulario_upload (conj v2_quejas_upload
            (conj v3_formulario_upload v3_quejas_upload))))).
Qed.

Lemma upload_failure_aborts_request_witness :
  let w := empty_world true in
  let out := V3.quejas_handler (sample_env (fails_at 2)) (request_of (Some ana) (Some cv)) w in
  existsb drive_failed (calls_during w (snd out)) = true
  /\ status (fst out) = 500
  /\ rows (quejas (snd out)) = [].
Proof.
  intros w out.
  assert (H : existsb drive_failed (calls_during w (snd out)) = true)
    by (vm_compute; reflexivity).
  split; [exact H|].
  destruct upload_failure_aborts_request as (_ & _ & _ & _ & _ & Hq).
  destruct (Hq (sample_env (fails_at 2)) (request_of (Some ana) (Some cv)) w H)
    as (_ & Hs & _ & Hr & _).
  split; [exact Hs|]. unfold out. rewrite Hr. reflexivity.
Defined.

(** C7 (as amended). In all three variants and on both routes, a send that
    throws after the row was stored makes the request fail with status
    500; the row stays in its table and the outbox gains nothing. *)
Theorem mail_failure_fails_request :
  fails_when_mail_fails Postulaciones V1.formulario
  /\ fails_when_mail_fails Quejas V1.quejas_handler
  /\ fails_when_mail_fails Postulaciones V2.formulario
  /\ fails_when_mail_fails Quejas V2.quejas_handler
  /\ fails_when_mail_fails Postulaciones V3.formulario
  /\ fails_when_mail_fails Quejas V3.quejas_handler.
Proof.
  exact (conj v1_formulario_mail (conj v1_quejas_mail
          (conj v2_formulario_mail (conj v2_quejas_mail
            (conj v3_formulario_mail v3_quejas_mail))))).
Qed.

Lemma mail_failure_fails_request_witness :
  let w := empty_world false in
  let out := V1.quejas_handler (sample_env (fails_at 1)) (request_of (Some ana) None) w in
  existsb mail_failed (calls_during w (snd out)) = true
  /\ status (fst out) = 500
  /\ length (rows_added Quejas w (snd out)) = 1%nat.
Proof.
  intros w out.
  assert (H : existsb mail_failed (calls_during w (snd out)) = true)
    by (vm_compute; reflexivity).
  split; [exact H|].
  destruct mail_failure_fails_request as (_ & Hq & _).
  destruct (Hq (sample_env (fails_at 1)) (request_of (Some ana) None) w H)
    as (Hs & Hr & _).
  split; [exact Hs | exact Hr].
Defined.

(** C7, as stated, fails: in each of the three variants there is an
    application whose row is stored, whose notification throws, and which
    is answered 500, not 200. *)
Lemma mail_failure_is_500_in_each_variant :
  stored_then_mail_failed (empty_world false)
    (V1.formulario (sample_env (fails_at 1)) (request_of (Some ana) None) (empty_world false))
  /\ stored_then_mail_failed (empty_world true)
       (V2.formulario (sample_env (fails_at 4)) (request_of (Some ana) (Some cv)) (empty_world true))
  /\ stored_then_mail_failed (empty_world true)
       (V3.formulario (sample_env (fails_at 1)) (request_of (Some ana) None) (empty_world true)).
Proof. vm_compute. repeat split; congruence. Qed.

(** ** The name of the uploaded object *)

Lemma replace_spaces_from_runs s :
  replace_spaces_from false s = concat (map underscore_for_run (runs s))
  /\ replace_spaces_from true s
     = match runs s with
       | (true, _) :: rest => concat (map underscore_for_run rest)
       | l => concat (map underscore_for_run l)
       end.
Proof.
  induction s as [|c r [IHf IHt]]; [split; reflexivity|].
  cbn [replace_spaces_from runs]. rewrite IHf, IHt.
  destruct (is_space c) eqn:Hc, (runs r) as [|[[|] t] rest]; cbn; auto.
Qed.

Lemma replace_spaces_spec s : replace_spaces s = underscore_each_run s.
Proof. apply replace_spaces_from_runs. Qed.

Example replace_spaces_ana :
  replace_spaces (lit "Ana Maria  Paz") = lit "Ana_Maria_Paz".
Proof. reflexivity. Qed.

Ltac all_truthy H :=
  cbn in H;
  repeat (apply andb_true_iff in H; let T := fresh "Ht" in destruct H as [T H]);
  repeat match goal with
  | T : truthy _ = true |- _ => rewrite T; clear T
  end.

Ltac first_call :=
  exec; gained; eexists _, _; split; reflexivity.

(** The names the handlers of variant 1 build for a file, were one handed
    to them. *)
Lemma v1_formulario_name :
  names_object_after_submitter (lit "HV") required_formulario
    GOOGLE_FOLDER_ID V1.formulario.
Proof.
  intros env req w f s Hf Hn Hreq.
  unfold V1.formulario, try_catch, required_formulario, fields, derived_name in *.
  rewrite <- replace_spaces_spec. rewrite Hf. all_truthy Hreq. rewrite Hn.
  first_call.
Qed.

Lemma v1_quejas_name :
  names_object_after_submitter (lit "QUEJA") required_quejas
    (fun env => js_or (GOOGLE_FOLDER_QUEJAS_ID env) (GOOGLE_FOLDER_ID env))
    V1.quejas_handler.
Proof.
  intros env req w f s Hf Hn Hreq.
  unfold V1.quejas_handler, try_catch, required_quejas, fields, derived_name in *.
  rewrite <- replace_spaces_spec. rewrite Hf. all_truthy Hreq. rewrite Hn.
  first_call.
Qed.

Ltac file_name h :=
  intros env req w f Hf [b Hb]; unfold h, try_catch; rewrite Hf, Hb; first_call.

Lemma v2_formulario_name : names_object_after_file V2.formulario.
Proof. file_name V2.formulario. Qed.

Lemma v2_quejas_name : names_object_after_file V2.quejas_handler.
Proof. file_name V2.quejas_handler. Qed.

Lemma v3_formulario_name : names_object_after_file V3.formulario.
Proof. file_name V3.formulario. Qed.

Lemma v3_quejas_name : names_object_after_file V3.quejas_handler.
Proof. file_name V3.quejas_handler. Qed.

(** In variant 3 the object of an application is not named after the
    submitter. *)
Lemma v3_object_named_after_file :
  let w := empty_world true in
  let req := request_of (Some ana) (Some cv) in
  let out := V3.formulario (sample_env never) req w in
  map file_name (drive (snd out)) = [lit "cv.pdf"]
  /\ lit "cv.pdf" <> derived_name (lit "HV") (lit "Ana Maria  Paz") (Date_now req).
Proof. vm_compute. split; [reflexivity | discriminate]. Qed.

Lemma v1_quejas_no_file env req w :
  file req = None ->
  existsb (fun e => is_drive_call (call e))
    (calls_during w (snd (V1.quejas_handler env req w))) = false
  /\ drive (snd (V1.quejas_handler env req w)) = drive w.
Proof.
  intros Hf. unfold V1.quejas_handler, try_catch. rewrite Hf. cbn. exec; gained;
    split; reflexivity.
Qed.

(** The upload middleware of variant 1 never hands a file on. *)
Lemma v1_upload_single (part : option File) :
  match V1.upload_single part with
  | inl e =>
      exists f, part = Some f
                /\ bool_decide (mimetype f ∈ V1.allowed_mimetypes) = false
                /\ e = lit "Tipo de archivo no permitido"
  | inr f => f = None
  end.
Proof.
  destruct part as [f|]; [|reflexivity].
  unfold V1.upload_single, V1.fileFilter. cbn [V1.cb_error V1.cb_accept].
  destruct (bool_decide (mimetype f ∈ V1.allowed_mimetypes)) eqn:Hok; [reflexivity|].
  exists f. auto.
Qed.

Lemma v1_formulario_never_uploads : never_uploads V1.formulario.
Proof.
  intros env req w. unfold V1.posted.
  pose proof (v1_upload_single (file req)) as Hu.
  destruct (V1.upload_single (file req)) as [e|f]; [exact Hu|]. subst f.
  split; [reflexivity|].
  destruct (v1_formulario_no_file env (with_file req None) w eq_refl) as (Hd & Hk & _).
  split; assumption.
Qed.

Lemma v1_quejas_never_uploads : never_uploads V1.quejas_handler.
Proof.
  intros env req w. unfold V1.posted.
  pose proof (v1_upload_single (file req)) as Hu.
  destruct (V1.upload_single (file req)) as [e|f]; [exact Hu|]. subst f.
  split; [reflexivity|]. exact (v1_quejas_no_file env (with_file req None) w eq_refl).
Qed.

(** C5. On the routes of variant 1 no attachment reaches the Drive, so no
    object gets the derived name.  [fileFilter] answers [cb(null)] for a
    type of its list, without the second argument that accepts the file,
    and [upload.single] skips the file; for any other type the request
    ends with the filter's error before the handler.  The handler runs as
    if no file had been sent: no Drive call, the Drive left as it was.  A
    valid application sent with a PDF is answered 200, no object is
    created, and its row has no link. *)
Theorem v1_attachment_never_uploaded :
  never_uploads V1.formulario
  /\ never_uploads V1.quejas_handler
  /\ (let w := empty_world false in
      let req := request_of (Some ana) (Some cv) in
      exists out,
        V1.posted (V1.formulario (sample_env never)) req w = inr out
        /\ status (fst out) = 200
        /\ drive (snd out) = []
        /\ existsb is_create (calls_during w (snd out)) = false
        /\ map (column "drive_file_url") (rows_added Postulaciones w (snd out)) = [null]).
Proof.
  split; [exact v1_formulario_never_uploads|].
  split; [exact v1_quejas_never_uploads|].
  intros w req.
  exists (V1.formulario (sample_env never) (with_file req None) w).
  repeat split; vm_compute; reflexivity.
Qed.

(** ** The export *)

Lemma bytes_le_total a b : bytes_le a b = true \/ bytes_le b a = true.
Proof.
  revert b. induction a as [|x a IH]; intros [|y b]; cbn; auto.
  destruct (IH b) as [H|H]; rewrite H;
    destruct (N.ltb_spec x y), (N.ltb_spec y x), (N.eqb_spec x y), (N.eqb_spec y x);
    cbn; auto; lia.
Qed.

Lemma bytes_le_trans a b c :
  bytes_le a b = true -> bytes_le b c = true -> bytes_le a c = true.
Proof.
  revert b c. induction a as [|x a IH]; intros [|y b] [|z c]; cbn; auto; try discriminate.
  intros H1 H2.
  apply orb_true_iff in H1 as [H1|[H1 H1']%andb_true_iff];
    apply orb_true_iff in H2 as [H2|[H2 H2']%andb_true_iff];
    try apply N.ltb_lt in H1; try apply N.ltb_lt in H2;
    try apply N.eqb_eq in H1; try apply N.eqb_eq in H2; subst.
  - replace (x <? z) with true by (symmetry; apply N.ltb_lt; lia). reflexivity.
  - replace (x <? z) with true by (symmetry; apply N.ltb_lt; lia). reflexivity.
  - replace (y <? z) with true by (symmetry; apply N.ltb_lt; lia). reflexivity.
  - rewrite N.eqb_refl, (IH _ _ H1' H2'). apply orb_true_r.
Qed.

Lemma sql_le_total a b : sql_le a b = true \/ sql_le b a = true.
Proof.
  unfold sql_le. destruct a, b; cbn; auto using bytes_le_total.
  destruct (Z.leb_spec z z0), (Z.leb_spec z0 z); auto; lia.
Qed.

Lemma sql_le_trans a b c :
  sql_le a b = true -> sql_le b c = true -> sql_le a c = true.
Proof.
  unfold sql_le. destruct a, b, c; cbn; auto; try discriminate.
  - apply bytes_le_trans.
  - intros H1%Z.leb_le H2%Z.leb_le. apply Z.leb_le. lia.
Qed.

Global Instance desc_by_total c : Total (desc_by c).
Proof. intros a b. unfold desc_by. destruct (sql_le_total (column c a) (column c b)); auto. Qed.

Global Instance desc_by_trans c : Transitive (desc_by c).
Proof. intros x y z H1 H2. unfold desc_by in *. eapply sql_le_trans; eauto. Qed.

Lemma select_sorted c t :
  StronglySorted (desc_by c) (select_order_by_desc c t)
  /\ select_order_by_desc c t ≡ₚ rows t.
Proof.
  split.
  - apply StronglySorted_merge_sort; apply _.
  - apply merge_sort_Permutation.
Qed.

Lemma utf8_byte_order_mark s :
  utf8 (byte_order_mark :: s) = [0xEF; 0xBB; 0xBF] ++ utf8 s.
Proof. reflexivity. Qed.

Lemma keys_of_clean toLocale r l :
  keys_of_first (map (clean toLocale) (r :: l)) = csv_header.
Proof. reflexivity. Qed.

(** C6. When the store answers the query: if [postulaciones] has no row
    the export answers 404; otherwise it answers 200 with the attachment
    [postulaciones.csv], whose text is the byte order mark followed by what
    the CSV parser, built with the delimiter [";"], makes of the rows taken
    in descending order of [fecha_envio]; sent as UTF-8, the body starts
    with the bytes EF BB BF. *)
Theorem csv_export env Parser_parse toLocaleString req w :
  ext_fails env (length (log w)) = false ->
  let out := descargar_postulaciones env Parser_parse toLocaleString req w in
  match rows (postulaciones w) with
  | [] => fst out = respond 404 (Text (lit "No hay postulaciones registradas."))
  | _ :: _ =>
      exists registros csv,
        registros ≡ₚ rows (postulaciones w)
        /\ StronglySorted (desc_by "fecha_envio") registros
        /\ csv = Parser_parse csv_header (lit ";") (map (clean toLocaleString) registros)
        /\ fst out = respond 200 (Attachment (lit "postulaciones.csv") (byte_order_mark :: csv))
        /\ take 3 (utf8 (byte_order_mark :: csv)) = [0xEF; 0xBB; 0xBF]
  end
  /\ postulaciones (snd out) = postulaciones w.
Proof.
  intros Hok out. subst out.
  unfold descargar_postulaciones, try_catch, select_postulaciones, bind, invoke.
  rewrite Hok. cbn.
  destruct (select_sorted "fecha_envio" (postulaciones w)) as [Hs Hp].
  destruct (rows (postulaciones w)) as [|r0 l0] eqn:Hrows.
  - apply Permutation_nil_r in Hp. rewrite Hp. cbn. auto.
  - destruct (select_order_by_desc "fecha_envio" (postulaciones w)) as [|r l] eqn:Hsel.
    + symmetry in Hp. apply Permutation_nil_r in Hp. discriminate.
    + cbn. split; [|reflexivity].
      exists (r :: l), (Parser_parse csv_header (lit ";") (map (clean toLocaleString) (r :: l))).
      repeat split; auto.
Qed.

Lemma csv_export_witness :
  let w := set_table Postulaciones two_applications (empty_world true) in
  let out := descargar_postulaciones (sample_env never) plain_csv template
               (request_of None None) w in
  exists csv,
    payload (fst out) = Attachment (lit "postulaciones.csv") (byte_order_mark :: csv)
    /\ status (fst out) = 200.
Proof.
  intros w out.
  destruct (csv_export (sample_env never) plain_csv template (request_of None None) w eq_refl)
    as [H _].
  cbn in H. destruct H as (registros & csv & _ & _ & _ & Hout & _).
  exists csv. fold out in Hout. rewrite Hout. split; reflexivity.
Defined.

Example csv_export_sample :
  let w := set_table Postulaciones two_applications (empty_world true) in
  payload (fst (descargar_postulaciones (sample_env never) plain_csv template
                  (request_of None None) w))
  = Attachment (lit "postulaciones.csv")
      (byte_order_mark
       :: lit "Nombre;Correo;Tel" ++ [0xE9] ++ lit "fono;Cargo;Mensaje;Archivo (Google Drive);Fecha de Env"
          ++ [0xED] ++ lit "o" ++ [10]
          ++ lit "Luz;undefined;undefined;undefined;undefined;undefined;2024-01-02T08:00:00.000Z" ++ [10]
          ++ lit "Ana;undefined;undefined;undefined;undefined;undefined;2023-11-14T22:13:20.000Z").
Proof. vm_compute. reflexivity. Qed.

(** ** The request counter *)

Section Counter.
Variable env : Env.
Variable static : Request -> Response.

Local Abbreviation app := (V1.app env static).
Local Abbreviation routed := (V1.routed env static).
Local Abbreviation serve := (V1.serve env static).

Lemma count_bump k w : V1.count k (V1.bump k w) = V1.count k w + 1.
Proof. unfold V1.count, V1.bump. cbn. now rewrite lookup_insert_eq. Qed.

Lemma count_bump_other k k' w : k' <> k -> V1.count k' (V1.bump k w) = V1.count k' w.
Proof. intros H. unfold V1.count, V1.bump. cbn. now rewrite lookup_insert_ne. Qed.

(** The middleware, by the count it finds. *)
Lemma rate_limit_cases req next w :
  V1.rate_limit req next w
  = if 60 <? V1.count (V1.hits_key req) w + 1
    then (V1.too_many, V1.bump (V1.hits_key req) w)
    else next (V1.bump (V1.hits_key req) w).
Proof.
  unfold V1.rate_limit. cbn. rewrite lookup_insert_eq. reflexivity.
Qed.

(** No route touches the counters. *)
Lemma routed_hits rt req w : hits (snd (routed rt req w)) = hits w.
Proof.
  destruct rt; cbn.
  - paths V1.formulario; reflexivity.
  - paths V1.quejas_handler; reflexivity.
  - reflexivity.
Qed.

Lemma app_hits rt req w :
  hits (snd (app rt req w)) = hits (V1.bump (V1.hits_key req) w).
Proof.
  unfold V1.app. rewrite rate_limit_cases.
  destruct (60 <? _); [reflexivity | apply routed_hits].
Qed.

Lemma app_count rt req w :
  V1.count (V1.hits_key req) (snd (app rt req w)) = V1.count (V1.hits_key req) w + 1.
Proof.
  unfold V1.count at 1. rewrite app_hits. apply count_bump.
Qed.

Lemma app_count_other rt req w k :
  k <> V1.hits_key req -> V1.count k (snd (app rt req w)) = V1.count k w.
Proof.
  intros H. unfold V1.count at 1. rewrite app_hits. now apply count_bump_other.
Qed.

(** The count of a key is what it was plus the requests served under it. *)
Lemma serve_count k history w :
  V1.count k (serve history w) = V1.count k w + V1.arrivals k history.
Proof.
  revert w. induction history as [|[rt req] rest IH]; intros w.
  - unfold V1.arrivals. cbn. lia.
  - cbn [V1.serve]. rewrite IH. unfold V1.arrivals. cbn [List.filter snd].
    destruct (decide (V1.hits_key req = k)) as [<-|Hne].
    + rewrite bool_decide_eq_true_2 by reflexivity. rewrite app_count.
      cbn [length]. lia.
    + rewrite bool_decide_eq_false_2 by assumption.
      rewrite app_count_other by congruence. reflexivity.
Qed.

(** A counter, once there, stays and does not fall. *)
Lemma app_keeps k n rt req w :
  hits w !! k = Some n ->
  exists m, hits (snd (app rt req w)) !! k = Some m /\ n <= m.
Proof.
  intros H. rewrite app_hits. unfold V1.bump, V1.count. cbn.
  destruct (decide (V1.hits_key req = k)) as [->|Hne].
  - rewrite lookup_insert_eq, H. cbn. eexists. split; [reflexivity | lia].
  - rewrite lookup_insert_ne by assumption. exists n. split; [assumption | lia].
Qed.

Lemma serve_keeps k n history w :
  hits w !! k = Some n ->
  exists m, hits (serve history w) !! k = Some m /\ n <= m.
Proof.
  revert n w. induction history as [|[rt req] rest IH]; intros n w H.
  - exists n. split; [assumption | lia].
  - cbn [V1.serve]. destruct (app_keeps k n rt req w H) as (m & Hm & Hle).
    destruct (IH m _ Hm) as (m' & Hm' & Hle'). exists m'. split; [assumption | lia].
Qed.

End Counter.

(** C2. Take a key of the counter, that is a client address and a minute
    of the hour, with no count yet.  After a history with 59 requests
    under the key, the next request under it, the 60th, is handed to its
    route.  After any further requests under other keys, the next request
    under the key, the 61st, is answered 429 at once: the world after it
    differs from the world before only by the counter, so no route ran. *)
Theorem sixtieth_passes_sixty_first_rejected
    env static (earlier between : list (Route * Request))
    (rt60 rt61 : Route) (req60 req61 : Request) (w0 : World) (k : jsstring) :
  hits w0 !! k = None ->
  V1.hits_key req60 = k ->
  V1.hits_key req61 = k ->
  V1.arrivals k earlier = 59 ->
  V1.arrivals k between = 0 ->
  let w59 := V1.serve env static earlier w0 in
  let w60 := V1.serve env static between (snd (V1.app env static rt60 req60 w59)) in
  V1.app env static rt60 req60 w59 = V1.routed env static rt60 req60 (V1.bump k w59)
  /\ V1.app env static rt61 req61 w60 = (V1.too_many, V1.bump k w60)
  /\ status V1.too_many = 429
  /\ V1.bump k w60 = set_hits (<[k := 61]> (hits w60)) w60.
Proof.
  intros H0 H60 H61 He Hb w59 w60.
  assert (C0 : V1.count k w0 = 0) by (unfold V1.count; now rewrite H0).
  assert (C59 : V1.count k w59 = 59).
  { unfold w59. rewrite serve_count, C0, He. reflexivity. }
  assert (C60 : V1.count k w60 = 60).
  { unfold w60. rewrite serve_count, Hb, <- H60, app_count, H60, C59. reflexivity. }
  unfold V1.app. rewrite !rate_limit_cases, H60, H61, C59, C60.
  repeat split. unfold V1.bump. now rewrite C60.
Qed.

Lemma sixtieth_passes_sixty_first_rejected_witness :
  let env := sample_env never in
  let k := lit "10.0.0.7:13" in
  let req := request_of (Some ana) None in
  let w59 := V1.serve env nothing_found fifty_nine_pages (empty_world false) in
  let w60 := V1.serve env nothing_found [other_page]
               (snd (V1.app env nothing_found PostFormulario req w59)) in
  V1.app env nothing_found PostFormulario req w59
  = V1.routed env nothing_found PostFormulario req (V1.bump k w59)
  /\ V1.app env nothing_found PostQuejas req w60 = (V1.too_many, V1.bump k w60).
Proof.
  intros env k req w59 w60.
  assert (He : V1.arrivals k fifty_nine_pages = 59) by (vm_compute; reflexivity).
  assert (Hb : V1.arrivals k [other_page] = 0) by (vm_compute; reflexivity).
  assert (Hk : V1.hits_key req = k) by (vm_compute; reflexivity).
  assert (H0 : hits (empty_world false) !! k = None) by apply lookup_empty.
  destruct (sixtieth_passes_sixty_first_rejected env nothing_found
              fifty_nine_pages [other_page] PostFormulario PostQuejas req req
              (empty_world false) k H0 Hk Hk He Hb) as (H1 & H2 & _).
  exact (conj H1 H2).
Defined.

(** C9. Every request raises the counter of its key by one before the
    threshold is looked at, whether it is then rejected or handed on, and
    leaves the other counters alone.  No sequence of requests removes or
    lowers a counter.  So once the count of a key is above 60, every later
    request under that key is answered 429, and still raises the count. *)
Theorem counter_counts_every_request
    env static (rt : Route) (req : Request) (w : World) :
  let k := V1.hits_key req in
  let w1 := snd (V1.app env static rt req w) in
  hits w1 !! k = Some (V1.count k w + 1)
  /\ (forall k', k' <> k -> hits w1 !! k' = hits w !! k')
  /\ (forall history k' n,
        hits w !! k' = Some n ->
        exists m, hits (V1.serve env static history w) !! k' = Some m /\ n <= m)
  /\ (forall history,
        60 < V1.count k w ->
        let w' := V1.serve env static history w in
        V1.app env static rt req w' = (V1.too_many, V1.bump k w')
        /\ V1.count k (V1.bump k w') = V1.count k w' + 1
        /\ 60 < V1.count k (V1.bump k w')).
Proof.
  intros k w1. repeat split.
  - unfold w1. rewrite app_hits. unfold V1.bump. cbn. apply lookup_insert_eq.
  - intros k' Hk. unfold w1. rewrite app_hits. unfold V1.bump. cbn.
    now rewrite lookup_insert_ne.
  - intros history k' n H. now apply serve_keeps.
  - unfold V1.app. rewrite rate_limit_cases. fold k.
    rewrite serve_count.
    replace (60 <? _) with true by (symmetry; apply N.ltb_lt; lia). reflexivity.
  - apply count_bump.
  - rewrite count_bump, serve_count. lia.
Qed.


Lemma counter_counts_every_request_witness :
  let env := sample_env never in
  let req := request_of (Some ana) None in
  let w' := V1.serve env nothing_found [page_request; other_page] busy_world in
  V1.app env nothing_found PostQuejas req w'
  = (V1.too_many, V1.bump (V1.hits_key req) w').
Proof.
  intros env req w'.
  assert (Hc : 60 < V1.count (V1.hits_key req) busy_world) by (vm_compute; reflexivity).
  destruct (counter_counts_every_request env nothing_found PostQuejas req busy_world)
    as (_ & _ & _ & H).
  exact (proj1 (H [page_request; other_page] Hc)).
Defined.

(** ** Identifiers *)






















Lemma lit_inj s t : lit s = lit t -> s = t.
Proof.
  unfold lit. intros H.
  rewrite <- (string_of_list_ascii_of_string s), <- (string_of_list_ascii_of_string t).
  f_equal. revert H. generalize (list_ascii_of_string s) (list_ascii_of_string t).
  induction l as [|a l IH]; intros [|b l']; cbn; try discriminate; auto.
  intros [= Hab Hl]. f_equal; [|now apply IH].
  rewrite <- (ascii_N_embedding a), <- (ascii_N_embedding b). now rewrite Hab.
Qed.



(** * Further properties *)

(** ** The pipeline as a whole *)

Ltac in_pipeline h :=
  intros env req w; paths h; gained; reflexivity.

Lemma v1_formulario_order : follows_pipeline V1.formulario.
Proof. in_pipeline V1.formulario. Qed.

Lemma v1_quejas_order : follows_pipeline V1.quejas_handler.
Proof. in_pipeline V1.quejas_handler. Qed.

Lemma v2_formulario_order : follows_pipeline V2.formulario.
Proof. in_pipeline V2.formulario. Qed.

Lemma v2_quejas_order : follows_pipeline V2.quejas_handler.
Proof. in_pipeline V2.quejas_handler. Qed.

Lemma v3_formulario_order : follows_pipeline V3.formulario.
Proof. in_pipeline V3.formulario. Qed.

Lemma v3_quejas_order : follows_pipeline V3.quejas_handler.
Proof. in_pipeline V3.quejas_handler. Qed.

(** X1. Upload, then persist, then notify: on every route of every variant
    the calls of a request are Drive calls, then at most one insert, then
    at most one send, and nothing is called after a call that threw. *)
Theorem calls_follow_pipeline :
  follows_pipeline V1.formulario /\ follows_pipeline V1.quejas_handler
  /\ follows_pipeline V2.formulario /\ follows_pipeline V2.quejas_handler
  /\ follows_pipeline V3.formulario /\ follows_pipeline V3.quejas_handler.
Proof.
  exact (conj v1_formulario_order (conj v1_quejas_order
          (conj v2_formulario_order (conj v2_quejas_order
            (conj v3_formulario_order v3_quejas_order))))).
Qed.

Example in_order_refuses_mail_before_insert :
  in_order Uploading
    [ {| call := transporter_sendMail {| mail_to := []; mail_cc := undefined; mail_subject := [] |};
         threw := false |};
      {| call := db_insert Quejas [] []; threw := false |} ] = false
  /\ in_order Uploading
       [ {| call := db_insert Quejas [] []; threw := true |};
         {| call := transporter_sendMail {| mail_to := []; mail_cc := undefined; mail_subject := [] |};
            threw := false |} ] = false.
Proof. split; reflexivity. Qed.

Ltac complete h :=
  intros env req w; cbn zeta; paths h; intros Hs; try discriminate Hs;
  gained; stored; gained; rewrite ?length_app; cbn;
  repeat split; try reflexivity; try lia.

Lemma v1_formulario_complete :
  success_is_complete Postulaciones (fun _ => true) V1.formulario.
Proof. complete V1.formulario. Qed.

Lemma v1_quejas_complete :
  success_is_complete Quejas (fun _ => true) V1.quejas_handler.
Proof. complete V1.quejas_handler. Qed.

Lemma v2_formulario_complete :
  success_is_complete Postulaciones (fun _ => true) V2.formulario.
Proof. complete V2.formulario. Qed.

Lemma v2_quejas_complete :
  success_is_complete Quejas (fun _ => true) V2.quejas_handler.
Proof. complete V2.quejas_handler. Qed.

Lemma v3_formulario_complete :
  success_is_complete Postulaciones (fun env => truthy (EMAIL_TO env)) V3.formulario.
Proof. complete V3.formulario. Qed.

Lemma v3_quejas_complete :
  success_is_complete Quejas (fun env => truthy (EMAIL_TO env)) V3.quejas_handler.
Proof. complete V3.quejas_handler. Qed.

(** ** When nothing throws *)








(** ** A field that was not sent *)

(** Every argument of the insert turned out defined. *)
Ltac all_defined :=
  repeat match goal with
  | H : _ || _ = false |- _ => apply orb_false_iff in H; destruct H
  end.

Ltac refusal h :=
  intros env req w b Hok Hb Hu; cbn zeta;
  unfold has_file, required_formulario, inserted_quejas in *;
  unfold h, try_catch; rewrite Hb;
  try (destruct (file req) eqn:?; [|discriminate Hok]);
  exec; gained;
  first [ exact (conj eq_refl (conj eq_refl (conj eq_refl (conj eq_refl eq_refl))))
        | all_defined; cbn in Hu;
          repeat match goal with
          | H : is_undefined ?v = false |- _ => rewrite H in Hu
          end;
          discriminate Hu ].

Lemma v2_formulario_refuses :
  refuses_missing_field has_file required_formulario V2.formulario.
Proof. refusal V2.formulario. Qed.

Lemma v2_quejas_refuses :
  refuses_missing_field (fun _ => true) inserted_quejas V2.quejas_handler.
Proof. refusal V2.quejas_handler. Qed.

Lemma v3_formulario_refuses :
  refuses_missing_field (fun _ => true) required_formulario V3.formulario.
Proof. refusal V3.formulario. Qed.

Lemma v3_quejas_refuses :
  refuses_missing_field (fun _ => true) inserted_quejas V3.quejas_handler.
Proof. refusal V3.quejas_handler. Qed.

(** ** The object left on the Drive *)

Lemma last_map_snoc {A B} (f : A -> B) l x : last (map f (l ++ [x])) = Some (f x).
Proof. rewrite map_app. cbn. apply last_snoc. Qed.

Lemma last_map_map_snoc {A B C} (f : B -> C) (g : A -> B) l x :
  last (map f (map g (l ++ [x]))) = Some (f (g x)).
Proof. rewrite map_map. apply (last_map_snoc (fun a => f (g a))). Qed.

Lemma make_public_reads fid f :
  file_id f = fid -> anyone_can_read (make_public fid f) = true.
Proof.
  intros H. unfold make_public. destruct (decide _); [reflexivity | contradiction].
Qed.

Lemma make_public_id fid f : file_id (make_public fid f) = file_id f.
Proof. unfold make_public. destruct (decide _); reflexivity. Qed.

Lemma add_parent_id fid p f : file_id (add_parent fid p f) = file_id f.
Proof. unfold add_parent. destruct (decide _); reflexivity. Qed.

Ltac orphan_goal :=
  match goal with
  | |- length _ = _ => rewrite ?length_map, ?length_app; cbn; lia
  | |- _ = true -> _ =>
      let Hf := fresh in
      intros Hf;
      first [ discriminate Hf
            | eexists; split;
              [ first [apply last_map_snoc | apply last_map_map_snoc]
              | apply make_public_reads; rewrite ?add_parent_id; reflexivity ] ]
  | |- _ => reflexivity
  end.

Ltac orphan h :=
  intros env req w; cbn zeta; unfold has_file; paths h; intros H; gained;
  try discriminate H; repeat split; orphan_goal.

Lemma v1_formulario_orphan : leaves_upload_behind V1.formulario.
Proof. orphan V1.formulario. Qed.

Lemma v1_quejas_orphan : leaves_upload_behind V1.quejas_handler.
Proof. orphan V1.quejas_handler. Qed.

Lemma v2_formulario_orphan : leaves_upload_behind V2.formulario.
Proof. orphan V2.formulario. Qed.

Lemma v2_quejas_orphan : leaves_upload_behind V2.quejas_handler.
Proof. orphan V2.quejas_handler. Qed.

Lemma v3_formulario_orphan : leaves_upload_behind V3.formulario.
Proof. orphan V3.formulario. Qed.

Lemma v3_quejas_orphan : leaves_upload_behind V3.quejas_handler.
Proof. orphan V3.quejas_handler. Qed.

(** ** The stored link *)

Lemma in_published fid l x :
  file_id x = fid ->
  exists d, In d (map (make_public fid) (l ++ [x]))
            /\ anyone_can_read d = true /\ file_id d = fid.
Proof.
  intros H. exists (make_public fid x). split.
  - apply in_map, in_or_app. right. now left.
  - split; [now apply make_public_reads | now rewrite make_public_id].
Qed.

Lemma in_moved_published fid p l x :
  file_id x = fid ->
  exists d, In d (map (make_public fid) (map (add_parent fid p) (l ++ [x])))
            /\ anyone_can_read d = true /\ file_id d = fid.
Proof.
  intros H. rewrite map_app. cbn [map].
  apply in_published. now rewrite add_parent_id.
Qed.

Ltac linked :=
  match goal with
  | Hcol : forall c, c <> "id"%string -> column c ?r = _ |- Forall _ [?r] =>
      constructor; [|constructor];
      let u := fresh "u" in
      let Hu := fresh "Hu" in
      let Hne := fresh "Hne" in
      intros u Hu Hne; rewrite Hcol in Hu by discriminate; cbn in Hu;
      first
        [ discriminate Hu
        | injection Hu as <-;
          first
            [ contradiction
            | edestruct in_published as (d & Hd & Hr & Hi);
              [| exists d; split; [exact Hd | split; [exact Hr | now rewrite Hi]]];
              reflexivity
            | edestruct in_moved_published as (d & Hd & Hr & Hi);
              [| exists d; split; [exact Hd | split; [exact Hr | now rewrite Hi]]];
              reflexivity ] ]
  | |- Forall _ [] => constructor
  end.

Ltac link_public h :=
  intros env req w; cbn zeta; paths h; gained; stored; gained; linked.

Lemma v1_formulario_link :
  stored_url_is_public "drive_file_url" Postulaciones V1.formulario.
Proof. link_public V1.formulario. Qed.

Lemma v1_quejas_link :
  stored_url_is_public "drive_file_url" Quejas V1.quejas_handler.
Proof. link_public V1.quejas_handler. Qed.

Lemma v2_formulario_link :
  stored_url_is_public "archivo_url" Postulaciones V2.formulario.
Proof. link_public V2.formulario. Qed.

Lemma v2_quejas_link :
  stored_url_is_public "archivo_url" Quejas V2.quejas_handler.
Proof. link_public V2.quejas_handler. Qed.

Lemma v3_formulario_link :
  stored_url_is_public "archivo_url" Postulaciones V3.formulario.
Proof. link_public V3.formulario. Qed.

Lemma v3_quejas_link :
  stored_url_is_public "archivo_url" Quejas V3.quejas_handler.
Proof. link_public V3.quejas_handler. Qed.

(** ** Requests refused at the door *)

Ltac no_body h :=
  intros env req w Hb; unfold h, try_catch; rewrite Hb; cbn; split; reflexivity.

Lemma v2_formulario_body : needs_body V2.formulario.
Proof. no_body V2.formulario. Qed.

Lemma v2_quejas_body : needs_body V2.quejas_handler.
Proof. no_body V2.quejas_handler. Qed.

(** ** Who is written to *)

Ltac every_call tac :=
  repeat match goal with
  | |- Forall _ [] => constructor
  | |- Forall _ (_ :: _) => constructor; [tac|]
  end.

Ltac addressed h :=
  intros env req w; paths h; gained;
  every_call ltac:(intros m Hm; cbn in Hm; first [discriminate Hm | injection Hm as <-; split; reflexivity]).

Lemma v1_formulario_mail_to :
  addresses_mail (fun env => [EMAIL_TO env]) (fun env => js_or (EMAIL_CC env) (Str []))
    V1.formulario.
Proof. addressed V1.formulario. Qed.

Lemma v1_quejas_mail_to :
  addresses_mail (fun env => [EMAIL_TO env]) (fun env => js_or (EMAIL_CC env) (Str []))
    V1.quejas_handler.
Proof. addressed V1.quejas_handler. Qed.

Ltac addressed_list h :=
  intros env req w; unfold recipients; paths h; gained;
  every_call ltac:(intros m Hm; cbn in Hm; first [discriminate Hm | injection Hm as <-; split; reflexivity]).

Lemma v2_formulario_mail_to :
  addresses_mail recipients (fun _ => undefined) V2.formulario.
Proof. addressed_list V2.formulario. Qed.

Lemma v2_quejas_mail_to :
  addresses_mail recipients (fun _ => undefined) V2.quejas_handler.
Proof. addressed_list V2.quejas_handler. Qed.

Lemma v3_formulario_mail_to :
  addresses_mail recipients (fun _ => undefined) V3.formulario.
Proof. addressed_list V3.formulario. Qed.

Lemma v3_quejas_mail_to :
  addresses_mail recipients (fun _ => undefined) V3.quejas_handler.
Proof. addressed_list V3.quejas_handler. Qed.

Lemma recipients_truthy env :
  Forall (fun v => truthy v = true) (recipients env)
  /\ sublist (recipients env) [EMAIL_TO env; EMAIL_CC env].
Proof.
  unfold recipients. split.
  - apply List.Forall_forall. intros v Hv. apply filter_In in Hv. tauto.
  - cbn. destruct (truthy (EMAIL_TO env)), (truthy (EMAIL_CC env));
      repeat constructor.
Qed.

(** ** Where the object is moved *)

Ltac moved h :=
  intros env req w; split;
  [ paths h; gained;
    every_call ltac:(intros fid p Hm; cbn in Hm; first [discriminate Hm | injection Hm as _ <-; reflexivity])
  | intros Hopt Hno; try discriminate Hopt; revert Hno; paths h; intros Hno; gained;
    unfold V3.FOLDER_QUEJAS, V3.FOLDER_POSTULACIONES in *;
    first [reflexivity | congruence] ].

Lemma v2_formulario_moves : moves_to GOOGLE_FOLDER_ID false V2.formulario.
Proof. moved V2.formulario. Qed.

Lemma v2_quejas_moves :
  moves_to (fun env => js_or (GOOGLE_FOLDER_QUEJAS_ID env) (GOOGLE_FOLDER_ID env)) false
    V2.quejas_handler.
Proof. moved V2.quejas_handler. Qed.

Lemma v3_formulario_moves : moves_to GOOGLE_FOLDER_ID true V3.formulario.
Proof. moved V3.formulario. Qed.

Lemma v3_quejas_moves :
  moves_to (fun env => js_or (GOOGLE_FOLDER_QUEJAS_ID env) (GOOGLE_FOLDER_ID env)) true
    V3.quejas_handler.
Proof. moved V3.quejas_handler. Qed.

Ltac silent h :=
  intros env req w Hto; revert Hto; paths h; intros Hto; gained;
  solve [split; reflexivity | congruence].

Lemma v3_formulario_silent : silent_without_recipient V3.formulario.
Proof. silent V3.formulario. Qed.

Lemma v3_quejas_silent : silent_without_recipient V3.quejas_handler.
Proof. silent V3.quejas_handler. Qed.

(** ** The sanitized name *)

Lemma replace_spaces_from_clean b s :
  Forall (fun c => is_space c = false) (replace_spaces_from b s).
Proof.
  revert b. induction s as [|c r IH]; intros b; cbn; [constructor|].
  destruct (is_space c) eqn:Hc.
  - destruct b; [apply IH|]. constructor; [reflexivity | apply IH].
  - constructor; [assumption | apply IH].
Qed.

Lemma replace_spaces_from_fixed s :
  Forall (fun c => is_space c = false) s -> replace_spaces_from false s = s.
Proof.
  induction 1 as [|c r Hc _ IH]; cbn; [reflexivity|]. now rewrite Hc, IH.
Qed.

Lemma replace_spaces_from_length b s :
  (length (replace_spaces_from b s) <= length s)%nat.
Proof.
  revert b. induction s as [|c r IH]; intros b; cbn; [lia|].
  pose proof (IH true). pose proof (IH false).
  destruct (is_space c), b; cbn; lia.
Qed.

(** X11. The name given to the Drive holds no white space, is no longer than the
    submitter's name, and a name without white space is left as it is; so
    replacing twice is replacing once. *)
Theorem sanitized_name_has_no_space (s : jsstring) :
  Forall (fun c => is_space c = false) (replace_spaces s)
  /\ (length (replace_spaces s) <= length s)%nat
  /\ (Forall (fun c => is_space c = false) s -> replace_spaces s = s)
  /\ replace_spaces (replace_spaces s) = replace_spaces s.
Proof.
  unfold replace_spaces. split; [apply replace_spaces_from_clean|].
  split; [apply replace_spaces_from_length|].
  split; [apply replace_spaces_from_fixed|].
  apply replace_spaces_from_fixed, replace_spaces_from_clean.
Qed.

Lemma sanitized_name_has_no_space_witness :
  replace_spaces (lit "Paz-Mora") = lit "Paz-Mora".
Proof.
  assert (H : Forall (fun c => is_space c = false) (lit "Paz-Mora"))
    by (repeat constructor).
  exact (proj1 (proj2 (proj2 (sanitized_name_has_no_space (lit "Paz-Mora")))) H).
Defined.

(** ** Variant 2: attachment required *)

(** X7. In variant 2 an application without a file is answered 400, "Archivo
    requerido.", whatever its fields, and nothing is called or stored. *)
Theorem v2_application_needs_file env req w b :
  body req = Some b ->
  file req = None ->
  V2.formulario env req w = (respond 400 (Text (lit "Archivo requerido.")), w).
Proof.
  intros Hb Hf. unfold V2.formulario, try_catch. rewrite Hb, Hf. reflexivity.
Qed.

Lemma v2_application_needs_file_witness :
  V2.formulario (sample_env never) (request_of (Some ana) None) (empty_world true)
  = (respond 400 (Text (lit "Archivo requerido.")), empty_world true).
Proof.
  exact (v2_application_needs_file (sample_env never) (request_of (Some ana) None)
           (empty_world true) ana eq_refl eq_refl).
Defined.

(** ** The export reads only *)

(** X12. The export makes one call, the query, and changes nothing: tables,
    Drive and outbox are what they were.  When the query throws the answer
    is 500, "Error al generar el archivo.". *)
Theorem export_reads_only env Parser_parse toLocaleString req w :
  let out := descargar_postulaciones env Parser_parse toLocaleString req w in
  calls_during w (snd out)
  = [{| call := db_select_postulaciones; threw := ext_fails env (length (log w)) |}]
  /\ postulaciones (snd out) = postulaciones w
  /\ quejas (snd out) = quejas w
  /\ drive (snd out) = drive w
  /\ outbox (snd out) = outbox w
  /\ hits (snd out) = hits w
  /\ (ext_fails env (length (log w)) = true ->
      fst out = respond 500 (Text (lit "Error al generar el archivo."))).
Proof.
  cbn zeta. unfold descargar_postulaciones, try_catch, select_postulaciones, bind, invoke.
  destruct (ext_fails env (length (log w))) eqn:Hf; cbn.
  - gained. repeat split; reflexivity.
  - destruct (select_order_by_desc _ _); cbn; gained;
      repeat split; solve [reflexivity | discriminate].
Qed.

Lemma export_reads_only_witness :
  fst (descargar_postulaciones (sample_env (fails_at 0)) plain_csv template
         (request_of None None)
         (set_table Postulaciones two_applications (empty_world true)))
  = respond 500 (Text (lit "Error al generar el archivo.")).
Proof.
  exact (proj2 (proj2 (proj2 (proj2 (proj2 (proj2
           (export_reads_only (sample_env (fails_at 0)) plain_csv template
              (request_of None None)
              (set_table Postulaciones two_applications (empty_world true))))))))
           eq_refl).
Defined.

(** ** The CORS middleware of variant 2 *)

(** X13. No [Origin] header: any origin is allowed.  A listed origin is named
    back, never answered with the wildcard.  Any other origin gets no
    [Access-Control-Allow-Origin] at all.  The three other headers are
    always set, and an OPTIONS request is answered 204 without going
    further, whatever its origin. *)
Theorem cors_allows_listed_origins (origin : value) (method : jsstring) :
  let headers := fst (Cors.cors origin method) in
  let verdict := snd (Cors.cors origin method) in
  (truthy origin = false ->
     Cors.get "Access-Control-Allow-Origin" headers = Some (lit "*"))
  /\ (forall s, origin = Str s -> s ∈ Cors.ALLOWED_ORIGINS ->
        Cors.get "Access-Control-Allow-Origin" headers = Some s)
  /\ (truthy origin = true -> Cors.includes origin = false ->
        Cors.get "Access-Control-Allow-Origin" headers = None)
  /\ Cors.get "Vary" headers = Some (lit "Origin")
  /\ Cors.get "Access-Control-Allow-Methods" headers = Some (lit "GET,POST,OPTIONS")
  /\ Cors.get "Access-Control-Allow-Headers" headers
     = Some (lit "Content-Type, Authorization")
  /\ (method = lit "OPTIONS" -> verdict = Cors.sendStatus 204)
  /\ (method <> lit "OPTIONS" -> verdict = Cors.next).
Proof.
  cbn zeta. unfold Cors.cors, Cors.header.
  split; [|split; [|split]].
  - intros Ht. rewrite Ht. cbn [negb orb]. unfold js_or. rewrite Ht.
    destruct (bool_decide _); reflexivity.
  - intros s -> Hs.
    assert (Hin : Cors.includes (Str s) = true) by (cbn; now apply bool_decide_eq_true).
    assert (Ht : truthy (Str s) = true).
    { destruct s; [|reflexivity]. vm_compute in Hs. set_solver. }
    rewrite Hin, orb_true_r. unfold js_or. rewrite Ht.
    destruct (bool_decide _); reflexivity.
  - intros Ht Hi. rewrite Ht, Hi. destruct (bool_decide _); reflexivity.
  - destruct (negb (truthy origin) || Cors.includes origin);
      destruct (bool_decide (method = lit "OPTIONS")) eqn:Hm; cbn [fst snd];
      (repeat split; try reflexivity; intros Hmeth;
       first [ reflexivity
             | apply bool_decide_eq_true in Hm; contradiction
             | apply bool_decide_eq_false in Hm; contradiction ]).
Qed.

Lemma cors_allows_listed_origins_witness :
  Cors.get "Access-Control-Allow-Origin"
    (fst (Cors.cors (Str (lit "https://evil.example")) (lit "OPTIONS"))) = None
  /\ snd (Cors.cors (Str (lit "https://evil.example")) (lit "OPTIONS")) = Cors.sendStatus 204
  /\ Cors.get "Access-Control-Allow-Origin"
       (fst (Cors.cors (Str (lit "http://localhost:5173")) (lit "POST")))
     = Some (lit "http://localhost:5173").
Proof.
  destruct (cors_allows_listed_origins (Str (lit "https://evil.example")) (lit "OPTIONS"))
    as (_ & _ & Hnone & _ & _ & _ & Hopt & _).
  destruct (cors_allows_listed_origins (Str (lit "http://localhost:5173")) (lit "POST"))
    as (_ & Hecho & _).
  split; [exact (Hnone eq_refl eq_refl)|].
  split; [exact (Hopt eq_refl)|].
  apply (Hecho _ eq_refl). vm_compute. set_solver.
Defined.

(** ** The keys of the counter *)

Lemma pretty_N_char_digit d : is_digit (N_of_ascii (pretty_N_char d)) = true.
Proof. unfold pretty_N_char. repeat case_match; reflexivity. Qed.

Lemma pretty_N_go_digits x s :
  Forall (fun c => is_digit c = true) (lit s) ->
  Forall (fun c => is_digit c = true) (lit (pretty_N_go x s)).
Proof.
  revert s. induction (N.lt_wf_0 x) as [x _ IH]; intros s Hs.
  destruct (decide (x = 0)) as [->|Hx].
  - now rewrite pretty_N_go_0.
  - rewrite pretty_N_go_step by lia. apply IH.
    + apply N.div_lt; lia.
    + unfold lit. cbn. constructor; [apply pretty_N_char_digit | exact Hs].
Qed.

Lemma decimal_digits n : Forall (fun c => is_digit c = true) (decimal n).
Proof.
  unfold decimal, pretty, pretty_N. destruct (decide (n = 0)).
  - repeat constructor.
  - apply pretty_N_go_digits. constructor.
Qed.

Lemma decimal_inj m n : decimal m = decimal n -> m = n.
Proof. unfold decimal. intros H. apply lit_inj in H. now apply (inj pretty). Qed.

(** Cutting at the last colon. *)
Lemma cut_at_colon (x y p q : jsstring) :
  Forall (fun c => is_digit c = true) x ->
  Forall (fun c => is_digit c = true) y ->
  x ++ 58 :: p = y ++ 58 :: q -> x = y /\ p = q.
Proof.
  intros Hx. revert y. induction Hx as [|c x Hc _ IH]; intros y Hy H.
  - destruct Hy as [|d y Hd _]; cbn in H.
    + injection H as ->. auto.
    + injection H as <- _. discriminate Hd.
  - destruct Hy as [|d y Hd Hy]; cbn in H.
    + injection H as -> _. discriminate Hc.
    + injection H as -> H. destruct (IH y Hy H) as [-> ->]. auto.
Qed.

Lemma rev_digits s :
  Forall (fun c => is_digit c = true) s -> Forall (fun c => is_digit c = true) (rev s).
Proof. intros H. apply Forall_rev. exact H. Qed.

Lemma hits_key_parts req :
  V1.hits_key req = client_address req ++ 58 :: decimal (getMinutes req).
Proof. reflexivity. Qed.

(** X14. Two requests are counted together exactly when they come from the same
    address in the same minute of the hour: the key never mixes two
    addresses or two minutes, and nothing else of the request enters it. *)
Theorem same_counter_same_address_and_minute (r1 r2 : Request) :
  V1.hits_key r1 = V1.hits_key r2
  <-> client_address r1 = client_address r2 /\ getMinutes r1 = getMinutes r2.
Proof.
  rewrite !hits_key_parts. split.
  - intros H. apply (f_equal (@rev N)) in H.
    rewrite !rev_app_distr in H. cbn [rev] in H. rewrite <- !app_assoc in H.
    cbn [app] in H.
    apply cut_at_colon in H; try (apply Forall_rev, decimal_digits).
    destruct H as [Hd Ha].
    apply (f_equal (@rev N)) in Hd, Ha. rewrite !rev_involutive in Hd, Ha.
    split; [exact Ha | now apply decimal_inj].
  - intros [-> ->]. reflexivity.
Qed.

(** ** The table of counters only grows *)

Lemma app_dom env static rt req w :
  dom (hits (snd (V1.app env static rt req w))) = {[ V1.hits_key req ]} ∪ dom (hits w).
Proof.
  rewrite app_hits. unfold V1.bump. cbn. apply dom_insert_L.
Qed.

(** X15. Nothing is ever taken out of [hits]: after any sequence of requests
    its keys are the keys it had and one key for each address and minute
    seen; so the table is never smaller than before. *)
Theorem counters_never_evicted env static (history : list (Route * Request)) (w : World) :
  dom (hits (V1.serve env static history w)) = dom (hits w) ∪ keys_of history
  /\ (size (hits w) <= size (hits (V1.serve env static history w)))%nat.
Proof.
  assert (H : dom (hits (V1.serve env static history w)) = dom (hits w) ∪ keys_of history).
  { revert w. induction history as [|[rt req] rest IH]; intros w; cbn [V1.serve].
    - unfold keys_of. cbn. set_solver.
    - rewrite IH, app_dom. unfold keys_of. cbn. set_solver. }
  split; [exact H|].
  rewrite <- !size_dom, H. apply subseteq_size. set_solver.
Qed.

(** ** The threshold *)

(** X16. Counting from a key that has no count yet: a request is answered 429
    exactly when at least 60 requests under its key were served before it;
    otherwise it goes to its route.  Either way its key's count becomes
    the number of requests under the key so far. *)
Theorem rejected_from_the_sixty_first_on
    env static (history : list (Route * Request)) (rt : Route) (req : Request) (w0 : World) :
  hits w0 !! V1.hits_key req = None ->
  let k := V1.hits_key req in
  let w := V1.serve env static history w0 in
  V1.app env static rt req w
  = (if 60 <=? V1.arrivals k history
     then (V1.too_many, V1.bump k w)
     else V1.routed env static rt req (V1.bump k w))
  /\ V1.count k (V1.bump k w) = V1.arrivals k history + 1.
Proof.
  intros H0 k w.
  assert (C : V1.count k w = V1.arrivals k history).
  { unfold w, k. rewrite serve_count. unfold V1.count. now rewrite H0. }
  split.
  - unfold V1.app. rewrite rate_limit_cases. fold k. rewrite C.
    destruct (N.ltb_spec 60 (V1.arrivals k history + 1)),
             (N.leb_spec 60 (V1.arrivals k history)); try reflexivity; lia.
  - rewrite count_bump. now rewrite C.
Qed.

Lemma rejected_from_the_sixty_first_on_witness :
  let env := sample_env never in
  let req := request_of (Some ana) None in
  let w := V1.serve env nothing_found [page_request; other_page; page_request]
             (empty_world false) in
  V1.count (V1.hits_key req) (V1.bump (V1.hits_key req) w)
  = V1.arrivals (V1.hits_key req) [page_request; other_page; page_request] + 1.
Proof.
  intros env req w.
  exact (proj2 (rejected_from_the_sixty_first_on env nothing_found
                  [page_request; other_page; page_request] PostFormulario req
                  (empty_world false) (lookup_empty _))).
Defined.

(** X2. An answer 200 is never given for half the work: on every route of
    every variant it means that no call threw, that the row is in its
    table, and that the mail has left (in variant 3, when [EMAIL_TO] is
    set). *)
Theorem success_means_stored_and_announced :
  success_is_complete Postulaciones (fun _ => true) V1.formulario
  /\ success_is_complete Quejas (fun _ => true) V1.quejas_handler
  /\ success_is_complete Postulaciones (fun _ => true) V2.formulario
  /\ success_is_complete Quejas (fun _ => true) V2.quejas_handler
  /\ success_is_complete Postulaciones (fun env => truthy (EMAIL_TO env)) V3.formulario
  /\ success_is_complete Quejas (fun env => truthy (EMAIL_TO env)) V3.quejas_handler.
Proof.
  exact (conj v1_formulario_complete (conj v1_quejas_complete
          (conj v2_formulario_complete (conj v2_quejas_complete
            (conj v3_formulario_complete v3_quejas_complete))))).
Qed.

Lemma success_means_stored_and_announced_witness :
  let w := empty_world true in
  let env := {| GOOGLE_FOLDER_ID := undefined; GOOGLE_FOLDER_QUEJAS_ID := undefined;
                EMAIL_TO := undefined; EMAIL_CC := Str (lit "copia@casa.co");
                ext_fails := never; drive_id := fun _ => lit "f";
                randomUUID := fun _ => lit "u" |} in
  let out := V3.quejas_handler env (request_of (Some ana) (Some cv)) w in
  length (rows_added Quejas w (snd out)) = 1%nat
  /\ length (outbox (snd out)) = length (outbox w).
Proof.
  intros w env out.
  destruct success_means_stored_and_announced as (_ & _ & _ & _ & _ & H).
  destruct (H env (request_of (Some ana) (Some cv)) w eq_refl) as (_ & _ & Hr & Hm).
  split; [exact Hr|]. fold out in Hm. rewrite Hm. cbn. lia.
Defined.



(** X4. When the insert throws, the request is answered 500, no row and no
    mail result, and nothing is undone: the object uploaded for the
    request stays on the Drive, readable by anyone. *)
Theorem failed_insert_leaves_upload :
  leaves_upload_behind V1.formulario /\ leaves_upload_behind V1.quejas_handler
  /\ leaves_upload_behind V2.formulario /\ leaves_upload_behind V2.quejas_handler
  /\ leaves_upload_behind V3.formulario /\ leaves_upload_behind V3.quejas_handler.
Proof.
  exact (conj v1_formulario_orphan (conj v1_quejas_orphan
          (conj v2_formulario_orphan (conj v2_quejas_orphan
            (conj v3_formulario_orphan v3_quejas_orphan))))).
Qed.

Lemma failed_insert_leaves_upload_witness :
  let w := empty_world true in
  let out := V2.formulario (sample_env (fails_at 3)) (request_of (Some ana) (Some cv)) w in
  status (fst out) = 500
  /\ length (drive (snd out)) = 1%nat
  /\ rows_added Postulaciones w (snd out) = [].
Proof.
  intros w out.
  assert (H : existsb insert_failed (calls_during w (snd out)) = true)
    by (vm_compute; reflexivity).
  destruct failed_insert_leaves_upload as (_ & _ & H2 & _).
  destruct (H2 (sample_env (fails_at 3)) (request_of (Some ana) (Some cv)) w H)
    as (Hs & Hr & _ & _ & _ & Hd & _).
  split; [exact Hs|]. split; [exact Hd | exact Hr].
Defined.

(** X5. A row never points to an object that is not there: whenever a new row
    carries a non-empty URL, the Drive holds the object of that link and
    anyone may read it (upload and sharing come before the insert). *)
Theorem stored_link_is_public :
  stored_url_is_public "drive_file_url" Postulaciones V1.formulario
  /\ stored_url_is_public "drive_file_url" Quejas V1.quejas_handler
  /\ stored_url_is_public "archivo_url" Postulaciones V2.formulario
  /\ stored_url_is_public "archivo_url" Quejas V2.quejas_handler
  /\ stored_url_is_public "archivo_url" Postulaciones V3.formulario
  /\ stored_url_is_public "archivo_url" Quejas V3.quejas_handler.
Proof.
  exact (conj v1_formulario_link (conj v1_quejas_link
          (conj v2_formulario_link (conj v2_quejas_link
            (conj v3_formulario_link v3_quejas_link))))).
Qed.

Lemma stored_link_is_public_witness :
  let w := empty_world false in
  let out := V1.formulario (sample_env never) (request_of (Some ana) (Some cv)) w in
  exists r d,
    rows_added Postulaciones w (snd out) = [r]
    /\ In d (drive (snd out))
    /\ anyone_can_read d = true
    /\ column "drive_file_url" r = Str (drive_url (file_id d)).
Proof.
  intros w out.
  pose proof (proj1 stored_link_is_public (sample_env never)
                (request_of (Some ana) (Some cv)) w) as H.
  cbn zeta in H. fold out in H.
  assert (Hr : exists r, rows_added Postulaciones w (snd out) = [r]
                         /\ column "drive_file_url" r = Str (drive_url (lit "file-0")))
    by (eexists; split; vm_compute; reflexivity).
  destruct Hr as (r & Hr & Hu). rewrite Hr in H.
  inversion H as [|? ? Hlink _]. subst.
  destruct (Hlink _ Hu) as (d & Hd & Hp & Hi); [vm_compute; discriminate|].
  exists r, d. split; [exact Hr|]. split; [exact Hd|]. split; [exact Hp|].
  rewrite Hu. now rewrite Hi.
Defined.

(** X6. Variant 2 mounts no body parser and reads the fields from
    [req.body] without a default: a request that is not multipart, whose
    body nothing parsed, is answered 500, and nothing is called, stored or
    sent. *)
Theorem unparsed_body_is_an_error :
  needs_body V2.formulario /\ needs_body V2.quejas_handler.
Proof.
  exact (conj v2_formulario_body v2_quejas_body).
Qed.

Lemma unparsed_body_is_an_error_witness :
  V2.quejas_handler (sample_env never) (request_of None None) (empty_world true)
  = (respond 500 (Text (cross_mark ++ lit " Error al enviar la queja.")),
     empty_world true).
Proof.
  destruct unparsed_body_is_an_error as (_ & H).
  destruct (H (sample_env never) (request_of None None) (empty_world true) eq_refl)
    as (Hs & Hw).
  rewrite (surjective_pairing (V2.quejas_handler _ _ _)), Hw. reflexivity.
Defined.

(** X8. Variant 1 writes to [EMAIL_TO] with copy to [EMAIL_CC], or to the
    empty string when there is none.  Variants 2 and 3 write to those of
    [EMAIL_TO] and [EMAIL_CC] that are set and not empty, in that order,
    without a copy field. *)
Theorem mail_goes_to_configured_addresses :
  addresses_mail (fun env => [EMAIL_TO env]) (fun env => js_or (EMAIL_CC env) (Str []))
    V1.formulario
  /\ addresses_mail (fun env => [EMAIL_TO env]) (fun env => js_or (EMAIL_CC env) (Str []))
       V1.quejas_handler
  /\ addresses_mail recipients (fun _ => undefined) V2.formulario
  /\ addresses_mail recipients (fun _ => undefined) V2.quejas_handler
  /\ addresses_mail recipients (fun _ => undefined) V3.formulario
  /\ addresses_mail recipients (fun _ => undefined) V3.quejas_handler
  /\ (forall env, Forall (fun v => truthy v = true) (recipients env)
                  /\ sublist (recipients env) [EMAIL_TO env; EMAIL_CC env]).
Proof.
  exact (conj v1_formulario_mail_to (conj v1_quejas_mail_to
          (conj v2_formulario_mail_to (conj v2_quejas_mail_to
            (conj v3_formulario_mail_to (conj v3_quejas_mail_to recipients_truthy)))))).
Qed.

Lemma mail_goes_to_configured_addresses_witness :
  let w := empty_world true in
  let out := V2.quejas_handler (sample_env never) (request_of (Some ana) None) w in
  map mail_to (outbox (snd out)) = [[Str (lit "rrhh@casa.co")]].
Proof.
  intros w out.
  destruct mail_goes_to_configured_addresses as (_ & _ & _ & H & _).
  specialize (H (sample_env never) (request_of (Some ana) None) w).
  fold out in H.
  assert (Hc : exists e1 m,
             calls_during w (snd out) = [e1; {| call := transporter_sendMail m; threw := false |}]
             /\ outbox (snd out) = [m])
    by (eexists _, _; split; vm_compute; reflexivity).
  destruct Hc as (e1 & m & Hc & Ho). rewrite Hc in H.
  inversion H as [|? ? _ H']. inversion H' as [|? ? Hm _]. subst.
  destruct (Hm m eq_refl) as (Hto & _).
  rewrite Ho. cbn. now rewrite Hto.
Defined.

(** X9. The uploaded object is moved to the folder of its kind: [GOOGLE_FOLDER_ID]
    for an application; for a complaint [GOOGLE_FOLDER_QUEJAS_ID], or
    [GOOGLE_FOLDER_ID] when the first is not set.  Variant 3 skips the move
    when no folder is configured; variant 2 does not. *)
Theorem upload_goes_to_folder_of_kind :
  moves_to GOOGLE_FOLDER_ID false V2.formulario
  /\ moves_to (fun env => js_or (GOOGLE_FOLDER_QUEJAS_ID env) (GOOGLE_FOLDER_ID env)) false
       V2.quejas_handler
  /\ moves_to GOOGLE_FOLDER_ID true V3.formulario
  /\ moves_to (fun env => js_or (GOOGLE_FOLDER_QUEJAS_ID env) (GOOGLE_FOLDER_ID env)) true
       V3.quejas_handler.
Proof.
  exact (conj v2_formulario_moves (conj v2_quejas_moves
          (conj v3_formulario_moves v3_quejas_moves))).
Qed.

Lemma upload_goes_to_folder_of_kind_witness :
  let env := {| GOOGLE_FOLDER_ID := undefined; GOOGLE_FOLDER_QUEJAS_ID := undefined;
                EMAIL_TO := undefined; EMAIL_CC := undefined;
                ext_fails := never; drive_id := fun _ => lit "f";
                randomUUID := fun _ => lit "u" |} in
  let w := empty_world true in
  existsb (fun e => match call e with drive_files_update _ _ => true | _ => false end)
    (calls_during w (snd (V3.quejas_handler env (request_of (Some ana) (Some cv)) w)))
  = false.
Proof.
  intros env w.
  destruct upload_goes_to_folder_of_kind as (_ & _ & _ & H).
  exact (proj2 (H env (request_of (Some ana) (Some cv)) w) eq_refl eq_refl).
Defined.

(** X10. Variant 3 sends nothing when [EMAIL_TO] is not set, even with
    [EMAIL_CC] set: no send is attempted and the outbox stays as it was. *)
Theorem v3_silent_without_recipient :
  silent_without_recipient V3.formulario /\ silent_without_recipient V3.quejas_handler.
Proof. exact (conj v3_formulario_silent v3_quejas_silent). Qed.

Lemma v3_silent_without_recipient_witness :
  let env := {| GOOGLE_FOLDER_ID := undefined; GOOGLE_FOLDER_QUEJAS_ID := undefined;
                EMAIL_TO := Str []; EMAIL_CC := Str (lit "copia@casa.co");
                ext_fails := never; drive_id := fun _ => lit "f";
                randomUUID := fun _ => lit "u" |} in
  let w := empty_world true in
  outbox (snd (V3.formulario env (request_of (Some ana) None) w)) = outbox w.
Proof.
  intros env w.
  exact (proj2 (proj1 v3_silent_without_recipient env (request_of (Some ana) None) w
                  eq_refl)).
Defined.

Lemma same_counter_same_address_and_minute_witness :
  V1.hits_key (request_of (Some ana) None) = V1.hits_key (request_of None (Some cv)).
Proof.
  apply (proj2 (same_counter_same_address_and_minute
                  (request_of (Some ana) None) (request_of None (Some cv)))).
  split; reflexivity.
Defined.

(** X17. In variants 2 and 3 nothing checks the fields before the insert,
    and the client refuses an argument that is [undefined]: a submission
    in which a field that the insert takes as it is was not sent (one of
    the four of an application, one of the five of a complaint; the
    message is covered by [mensaje || '']) is answered 500, no row is
    added and no mail is sent, whether the other calls succeed or not.
    For an application of variant 2 this is the case of a request with a
    file; without one the answer is 400. *)
Theorem missing_field_is_refused_by_the_store :
  refuses_missing_field has_file required_formulario V2.formulario
  /\ refuses_missing_field (fun _ => true) inserted_quejas V2.quejas_handler
  /\ refuses_missing_field (fun _ => true) required_formulario V3.formulario
  /\ refuses_missing_field (fun _ => true) inserted_quejas V3.quejas_handler.
Proof.
  exact (conj v2_formulario_refuses (conj v2_quejas_refuses
          (conj v3_formulario_refuses v3_quejas_refuses))).
Qed.

Lemma missing_field_is_refused_by_the_store_witness :
  let w := empty_world true in
  let out := V3.quejas_handler (sample_env never)
               (request_of (Some ana_without_message) None) w in
  status (fst out) = 500
  /\ rows_added Postulaciones w (snd out) = []
  /\ rows_added Quejas w (snd out) = []
  /\ outbox (snd out) = outbox w
  /\ existsb (fun e => is_mail_call (call e)) (calls_during w (snd out)) = false.
Proof.
  intros w out.
  destruct missing_field_is_refused_by_the_store as (_ & _ & _ & H).
  exact (H (sample_env never) (request_of (Some ana_without_message) None) w
           ana_without_message eq_refl eq_refl eq_refl).
Defined.

(** X18. In variants 2 and 3 the object of a submission with an attachment
    is created under the original name of the uploaded file, with no
    parent folder given at creation, and with the file's type and
    content; it is the first call of the request and the only creation. *)
Theorem object_bears_original_name :
  names_object_after_file V2.formulario
  /\ names_object_after_file V2.quejas_handler
  /\ names_object_after_file V3.formulario
  /\ names_object_after_file V3.quejas_handler.
Proof.
  exact (conj v2_formulario_name (conj v2_quejas_name
          (conj v3_formulario_name v3_quejas_name))).
Qed.

Lemma object_bears_original_name_witness :
  let w := empty_world true in
  let req := request_of (Some ana) (Some cv) in
  creates_object (lit "cv.pdf") [] cv
    (calls_during w (snd (V3.formulario (sample_env never) req w))).
Proof.
  intros w req.
  destruct object_bears_original_name as (_ & _ & H & _).
  exact (H (sample_env never) req w cv eq_refl (ex_intro _ ana eq_refl)).
Defined.
